(** * The RADIUS profile resource of the REST API provider

    A shallow embedding of [restapi/resource_profile.go] (schema, JSON
    structures, [buildProfileObject], [getProfile] and the four CRUD
    callbacks) together with the library behaviour they rest on:
    [fmt.Sprintf] on the formats used, a reader and writer for
    [encoding/json], and the Terraform SDK's [ResourceData] and validators.

    The resource is embedded as it is registered by [Provider]: the
    callbacks that take an [operator_id] and a [profile_id].  The callbacks
    of the generic REST object that the file was derived from, which it
    keeps as comments, are not part of the program.

    The HTTP client ([APIClient], [sendRequest]) is not part of the sources;
    it is a parameter of the model: an arbitrary deterministic answer to the
    requests sent so far. *)

From Stdlib Require Import ZArith List String Ascii Bool Lia.
From Stdlib Require Import DecimalString DecimalNat DecimalZ.
Import ListNotations.

Set Warnings "-register-all".

Local Open Scope string_scope.
Local Open Scope bool_scope.

(** ** Go values used throughout *)

(** Go's [error] values met by the profile resource.  [sendRequest] may
    report any error; [encoding/json] reports the last two. *)
Inductive error : Type :=
| SendError (msg : string)
| SyntaxError
| UnmarshalTypeError (value : string) (gotype : string).

(** A Go call that may panic (a failed type assertion): [None] is the panic. *)
Definition Go (A : Type) : Type := option A.

Definition ret {A : Type} (a : A) : Go A := Some a.

Definition bind {A B : Type} (m : Go A) (k : A -> Go B) : Go B :=
  match m with
  | Some a => k a
  | None => None
  end.

Notation "x <- m ;; k" := (bind m (fun x => k))
  (at level 61, m at next level, right associativity).

Notation "' p <- m ;; k" := (bind m (fun x => let p := x in k))
  (at level 61, p pattern, m at next level, right associativity).

Fixpoint mapM {A B : Type} (f : A -> Go B) (l : list A) : Go (list B) :=
  match l with
  | [] => ret []
  | a :: r => b <- f a ;; bs <- mapM f r ;; ret (b :: bs)
  end.

(** Results of [encoding/json]: an error or a value. *)
Definition try {A B : Type} (m : error + A) (k : A -> error + B) : error + B :=
  match m with
  | inl e => inl e
  | inr a => k a
  end.

Fixpoint try_all {A B : Type} (f : A -> error + B) (l : list A) : error + list B :=
  match l with
  | [] => inr []
  | a :: r => try (f a) (fun b => try (try_all f r) (fun bs => inr (b :: bs)))
  end.

(** ** [fmt] and [strings] *)

Module Fmt.

(** [%d] of a non-negative [int]. *)
Definition itoa (n : nat) : string := NilEmpty.string_of_uint (Nat.to_uint n).

(** A list index as the SDK reads it from a key: a non-empty digit string. *)
Definition atoi (s : string) : option nat :=
  match s with
  | EmptyString => None
  | _ => option_map Nat.of_uint (NilEmpty.uint_of_string s)
  end.

(** [strings.Split(s, sep)] for a one-byte separator. *)
Fixpoint split (sep : ascii) (s : string) : list string :=
  match s with
  | EmptyString => [EmptyString]
  | String c r =>
      if Ascii.eqb c sep then EmptyString :: split sep r
      else match split sep r with
           | [] => [String c EmptyString]
           | h :: t => String c h :: t
           end
  end.

(** No byte of [s] is [c]. *)
Fixpoint free_of (c : ascii) (s : string) : bool :=
  match s with
  | EmptyString => true
  | String a r => negb (Ascii.eqb a c) && free_of c r
  end.

(** ASCII lower-casing. *)
Definition lower (c : ascii) : ascii :=
  let n := N_of_ascii c in
  if ((65 <=? n) && (n <=? 90))%N then ascii_of_N (n + 32) else c.

Fixpoint to_lower (s : string) : string :=
  match s with
  | EmptyString => EmptyString
  | String c r => String (lower c) (to_lower r)
  end.

Fixpoint all_chars (p : ascii -> bool) (s : string) : bool :=
  match s with
  | EmptyString => true
  | String c r => p c && all_chars p r
  end.

Fixpoint last_char (s : string) : option ascii :=
  match s with
  | EmptyString => None
  | String c EmptyString => Some c
  | String _ r => last_char r
  end.

(** [s] without its last byte. *)
Fixpoint but_last (s : string) : string :=
  match s with
  | EmptyString => EmptyString
  | String _ EmptyString => EmptyString
  | String c r => String c (but_last r)
  end.

Definition in_range (lo hi : N) (c : ascii) : bool :=
  let n := N_of_ascii c in ((lo <=? n) && (n <=? hi))%N.

Definition is_digit (c : ascii) : bool := in_range 48 57 c.
Definition is_lower (c : ascii) : bool := in_range 97 122 c.
Definition is_upper (c : ascii) : bool := in_range 65 90 c.

End Fmt.

(** ** [encoding/json] *)

Module Json.

(** A JSON document.  A number keeps its literal, as Go's scanner does, so
    that the target type decides what it may be. *)
Inductive JSON : Type :=
| JNull
| JBool (b : bool)
| JNumber (lit : string)
| JString (s : string)
| JArray (elems : list JSON)
| JObject (members : list (string * JSON)).

Definition dquote : ascii := "034"%char.
Definition backslash : ascii := "092"%char.

Definition kind_name (v : JSON) : string :=
  match v with
  | JNull => "null"
  | JBool _ => "bool"
  | JNumber _ => "number"
  | JString _ => "string"
  | JArray _ => "array"
  | JObject _ => "object"
  end.

(** *** Reading *)

Definition is_ws (c : ascii) : bool :=
  Ascii.eqb c " " || Ascii.eqb c "009" || Ascii.eqb c "010" || Ascii.eqb c "013".

Fixpoint skip_ws (s : string) : string :=
  match s with
  | String c r => if is_ws c then skip_ws r else s
  | EmptyString => s
  end.

Definition hex_val (c : ascii) : option N :=
  let n := N_of_ascii c in
  if Fmt.in_range 48 57 c then Some (n - 48)%N
  else if Fmt.in_range 97 102 c then Some (n - 87)%N
  else if Fmt.in_range 65 70 c then Some (n - 55)%N
  else None.

Definition hex4 (a b c d : ascii) : option N :=
  match hex_val a, hex_val b, hex_val c, hex_val d with
  | Some x, Some y, Some z, Some w => Some (((x * 16 + y) * 16 + z) * 16 + w)%N
  | _, _, _, _ => None
  end.

Definition byte (n : N) : string := String (ascii_of_N n) EmptyString.

(** UTF-8 of a code point; a surrogate is written as U+FFFD. *)
Definition utf8 (n : N) : string :=
  (if n <? 128 then byte n
   else if n <? 2048 then byte (192 + n / 64) ++ byte (128 + n mod 64)
   else if (55296 <=? n) && (n <? 57344) then byte 239 ++ byte 191 ++ byte 189
   else if n <? 65536 then
     byte (224 + n / 4096) ++ byte (128 + (n / 64) mod 64) ++ byte (128 + n mod 64)
   else
     byte (240 + n / 262144) ++ byte (128 + (n / 4096) mod 64)
       ++ byte (128 + (n / 64) mod 64) ++ byte (128 + n mod 64))%N.

Definition is_high_surrogate (n : N) : bool := ((55296 <=? n) && (n <? 56320))%N.
Definition is_low_surrogate (n : N) : bool := ((56320 <=? n) && (n <? 57344))%N.

Definition unescape (c : ascii) : option ascii :=
  if Ascii.eqb c dquote then Some dquote
  else if Ascii.eqb c backslash then Some backslash
  else if Ascii.eqb c "/" then Some "/"%char
  else if Ascii.eqb c "b" then Some "008"%char
  else if Ascii.eqb c "f" then Some "012"%char
  else if Ascii.eqb c "n" then Some "010"%char
  else if Ascii.eqb c "r" then Some "013"%char
  else if Ascii.eqb c "t" then Some "009"%char
  else None.

(** A low surrogate escape [\uXXXX] at the head of [s], and what follows it. *)
Definition low_surrogate_escape (s : string) : option N :=
  match s with
  | String b (String u (String h1 (String h2 (String h3 (String h4 _))))) =>
      if Ascii.eqb b backslash && Ascii.eqb u "u" then
        match hex4 h1 h2 h3 h4 with
        | Some n => if is_low_surrogate n then Some n else None
        | None => None
        end
      else None
  | _ => None
  end.

(** The text of a string after its opening quote: the decoded string and
    what follows the closing quote. *)
Fixpoint scan_string (s : string) : option (string * string) :=
  match s with
  | EmptyString => None
  | String c r =>
      if Ascii.eqb c dquote then Some (EmptyString, r)
      else if Ascii.eqb c backslash then
        match r with
        | EmptyString => None
        | String e r1 =>
            if Ascii.eqb e "u" then
              match r1 with
              | String h1 (String h2 (String h3 (String h4 r2))) =>
                  match hex4 h1 h2 h3 h4 with
                  | None => None
                  | Some n =>
                      match (if is_high_surrogate n then low_surrogate_escape r2 else None), r2 with
                      | Some lo, String _ (String _ (String _ (String _ (String _ (String _ r3))))) =>
                          match scan_string r3 with
                          | Some (t, rest) =>
                              Some (utf8 (65536 + (n - 55296) * 1024 + (lo - 56320))%N ++ t, rest)
                          | None => None
                          end
                      | _, _ =>
                          match scan_string r2 with
                          | Some (t, rest) => Some (utf8 n ++ t, rest)
                          | None => None
                          end
                      end
                  end
              | _ => None
              end
            else
              match unescape e with
              | None => None
              | Some ch =>
                  match scan_string r1 with
                  | Some (t, rest) => Some (String ch t, rest)
                  | None => None
                  end
              end
        end
      else if (N_of_ascii c <? 32)%N then None
      else
        match scan_string r with
        | Some (t, rest) => Some (String c t, rest)
        | None => None
        end
  end.

Fixpoint take_digits (s : string) : string * string :=
  match s with
  | String c r =>
      if Fmt.is_digit c then let (ds, rest) := take_digits r in (String c ds, rest)
      else (EmptyString, s)
  | EmptyString => (EmptyString, s)
  end.

(** The integer part of a number: [0] or a digit run that starts with 1..9. *)
Definition scan_int (s : string) : option (string * string) :=
  match s with
  | String c r =>
      if Ascii.eqb c "0" then Some ("0", r)
      else if Fmt.in_range 49 57 c then
        let (ds, rest) := take_digits r in Some (String c ds, rest)
      else None
  | EmptyString => None
  end.

Definition scan_frac (s : string) : option (string * string) :=
  match s with
  | String c r =>
      if Ascii.eqb c "." then
        match take_digits r with
        | (EmptyString, _) => None
        | (ds, rest) => Some (String c ds, rest)
        end
      else Some (EmptyString, s)
  | EmptyString => Some (EmptyString, s)
  end.

Definition scan_exp (s : string) : option (string * string) :=
  match s with
  | String c r =>
      if Ascii.eqb c "e" || Ascii.eqb c "E" then
        let (sign, r1) :=
          match r with
          | String g r' =>
              if Ascii.eqb g "+" || Ascii.eqb g "-" then (String g EmptyString, r') else (EmptyString, r)
          | EmptyString => (EmptyString, r)
          end in
        match take_digits r1 with
        | (EmptyString, _) => None
        | (ds, rest) => Some (String c (sign ++ ds), rest)
        end
      else Some (EmptyString, s)
  | EmptyString => Some (EmptyString, s)
  end.

(** A number literal at the head of [s]. *)
Definition scan_number (s : string) : option (string * string) :=
  let (sign, s1) :=
    match s with
    | String c r => if Ascii.eqb c "-" then ("-", r) else (EmptyString, s)
    | EmptyString => (EmptyString, s)
    end in
  match scan_int s1 with
  | None => None
  | Some (i, s2) =>
      match scan_frac s2 with
      | None => None
      | Some (f, s3) =>
          match scan_exp s3 with
          | None => None
          | Some (e, s4) => Some (sign ++ i ++ f ++ e, s4)
          end
      end
  end.

(** [s] without the prefix [p], when it starts with it. *)
Fixpoint strip_prefix (p s : string) : option string :=
  match p, s with
  | EmptyString, _ => Some s
  | String a p', String b s' => if Ascii.eqb a b then strip_prefix p' s' else None
  | String _ _, EmptyString => None
  end.

Definition literal (word : string) (v : JSON) (s : string) : option (JSON * string) :=
  match strip_prefix word s with
  | Some rest => Some (v, rest)
  | None => None
  end.

(** One value at the head of [s] (white space skipped), and what follows it.
    [fuel] bounds the nesting and the number of members read. *)
Fixpoint parse_value (fuel : nat) (s : string) : option (JSON * string) :=
  match fuel with
  | O => None
  | S fuel' =>
      match skip_ws s with
      | EmptyString => None
      | String c r as s0 =>
          if Ascii.eqb c "n" then literal "null" JNull s0
          else if Ascii.eqb c "t" then literal "true" (JBool true) s0
          else if Ascii.eqb c "f" then literal "false" (JBool false) s0
          else if Ascii.eqb c dquote then
            match scan_string r with
            | Some (t, rest) => Some (JString t, rest)
            | None => None
            end
          else if Ascii.eqb c "[" then
            match skip_ws r with
            | String d r' as r0 =>
                if Ascii.eqb d "]" then Some (JArray [], r')
                else match parse_elems fuel' r0 with
                     | Some (l, rest) => Some (JArray l, rest)
                     | None => None
                     end
            | EmptyString => None
            end
          else if Ascii.eqb c "{" then
            match skip_ws r with
            | String d r' as r0 =>
                if Ascii.eqb d "}" then Some (JObject [], r')
                else match parse_members fuel' r0 with
                     | Some (l, rest) => Some (JObject l, rest)
                     | None => None
                     end
            | EmptyString => None
            end
          else
            match scan_number s0 with
            | Some (lit, rest) => Some (JNumber lit, rest)
            | None => None
            end
      end
  end

with parse_elems (fuel : nat) (s : string) : option (list JSON * string) :=
  match fuel with
  | O => None
  | S fuel' =>
      match parse_value fuel' s with
      | None => None
      | Some (v, s1) =>
          match skip_ws s1 with
          | String c r =>
              if Ascii.eqb c "]" then Some ([v], r)
              else if Ascii.eqb c "," then
                match parse_elems fuel' r with
                | Some (l, rest) => Some (v :: l, rest)
                | None => None
                end
              else None
          | EmptyString => None
          end
      end
  end

with parse_members (fuel : nat) (s : string) : option (list (string * JSON) * string) :=
  match fuel with
  | O => None
  | S fuel' =>
      match skip_ws s with
      | String q r =>
          if Ascii.eqb q dquote then
            match scan_string r with
            | None => None
            | Some (k, s1) =>
                match skip_ws s1 with
                | String c s2 =>
                    if Ascii.eqb c ":" then
                      match parse_value fuel' s2 with
                      | None => None
                      | Some (v, s3) =>
                          match skip_ws s3 with
                          | String d s4 =>
                              if Ascii.eqb d "}" then Some ([(k, v)], s4)
                              else if Ascii.eqb d "," then
                                match parse_members fuel' s4 with
                                | Some (l, rest) => Some ((k, v) :: l, rest)
                                | None => None
                                end
                              else None
                          | EmptyString => None
                          end
                      end
                    else None
                | EmptyString => None
                end
            end
          else None
      | EmptyString => None
      end
  end.

(** A whole text: one value, white space around it and nothing else. *)
Definition parse (text : string) : option JSON :=
  match parse_value (S (String.length text)) text with
  | Some (v, rest) =>
      match skip_ws rest with
      | EmptyString => Some v
      | String _ _ => None
      end
  | None => None
  end.

(** *** Writing *)

Definition hex_digit (n : N) : ascii :=
  if (n <? 10)%N then ascii_of_N (48 + n) else ascii_of_N (87 + n).

(** The escape [\u00XX] of a byte. *)
Definition escape_u00 (c : ascii) : string :=
  let n := N_of_ascii c in
  String backslash
    (String "u" (String "0" (String "0"
       (String (hex_digit (n / 16)) (String (hex_digit (n mod 16)) EmptyString))))).

(** The inside of a string literal, as [json.Marshal] writes it: quote and
    backslash escaped, control bytes and the HTML bytes written as escapes,
    U+2028 and U+2029 escaped, every other byte as it is. *)
Fixpoint escape_string (s : string) : string :=
  match s with
  | EmptyString => EmptyString
  | String c r =>
      if Ascii.eqb c dquote || Ascii.eqb c backslash then
        String backslash (String c (escape_string r))
      else if Ascii.eqb c "010" then String backslash (String "n" (escape_string r))
      else if Ascii.eqb c "013" then String backslash (String "r" (escape_string r))
      else if Ascii.eqb c "009" then String backslash (String "t" (escape_string r))
      else if (N_of_ascii c <? 32)%N || Ascii.eqb c "<" || Ascii.eqb c ">" || Ascii.eqb c "&" then
        escape_u00 c ++ escape_string r
      else
        match r with
        | String c1 (String c2 r2) =>
            if Ascii.eqb c "226" && Ascii.eqb c1 "128" && (Ascii.eqb c2 "168" || Ascii.eqb c2 "169") then
              String backslash
                (String "u" (String "2" (String "0" (String "2"
                   (String (if Ascii.eqb c2 "168" then "8" else "9")%char (escape_string r2))))))
            else String c (escape_string r)
        | _ => String c (escape_string r)
        end
  end.

Definition quote (s : string) : string :=
  String dquote (escape_string s ++ String dquote EmptyString).

(** [json.Marshal] of a document: no white space, members in order. *)
Fixpoint render (v : JSON) : string :=
  match v with
  | JNull => "null"
  | JBool true => "true"
  | JBool false => "false"
  | JNumber lit => lit
  | JString s => quote s
  | JArray l =>
      "[" ++ (fix elems (l : list JSON) : string :=
                match l with
                | [] => EmptyString
                | [x] => render x
                | x :: r => render x ++ "," ++ elems r
                end) l ++ "]"
  | JObject ms =>
      "{" ++ (fix members (ms : list (string * JSON)) : string :=
                match ms with
                | [] => EmptyString
                | [(k, x)] => quote k ++ ":" ++ render x
                | (k, x) :: r => quote k ++ ":" ++ render x ++ "," ++ members r
                end) ms ++ "}"
  end.

(** *** Values of Go types *)

(** A Go [int] is 64 bits wide. *)
Definition int_range (z : Z) : Prop := (- 2 ^ 63 <= z < 2 ^ 63)%Z.

Definition in_int_range (z : Z) : bool := ((- 2 ^ 63 <=? z) && (z <? 2 ^ 63))%Z.

(** [strconv.ParseInt(lit, 10, 64)] of a number literal. *)
Definition int_of_literal (lit : string) : option Z :=
  match NilZero.int_of_string lit with
  | Some d => let z := Z.of_int d in if in_int_range z then Some z else None
  | None => None
  end.

Definition literal_of_int (z : Z) : string := NilZero.string_of_int (Z.to_int z).

Definition type_error {A : Type} (v : JSON) (gotype : string) : error + A :=
  inl (UnmarshalTypeError (kind_name v) gotype).

(** Unmarshalling into a [string], [bool] or [int] that holds [old]: [null]
    leaves it as it is. *)
Definition decode_string (v : JSON) (old : string) : error + string :=
  match v with
  | JNull => inr old
  | JString s => inr s
  | _ => type_error v "string"
  end.

Definition decode_bool (v : JSON) (old : bool) : error + bool :=
  match v with
  | JNull => inr old
  | JBool b => inr b
  | _ => type_error v "bool"
  end.

Definition decode_int (v : JSON) (old : Z) : error + Z :=
  match v with
  | JNull => inr old
  | JNumber lit =>
      match int_of_literal lit with
      | Some z => inr z
      | None => inl (UnmarshalTypeError ("number " ++ lit) "int")
      end
  | _ => type_error v "int"
  end.

(** Unmarshalling into a slice: [null] makes it nil, an array replaces it. *)
Definition decode_slice {A : Type} (elem : JSON -> error + A) (gotype : string)
    (v : JSON) : error + list A :=
  match v with
  | JNull => inr []
  | JArray l => try_all elem l
  | _ => type_error v gotype
  end.

(** Unmarshalling an object into a struct: each member in turn is handed to
    the field its key names; the key is matched without regard to (ASCII)
    case, and a key that names no field is skipped. *)
Fixpoint decode_members {T : Type} (field : T -> string -> JSON -> error + T)
    (ms : list (string * JSON)) (acc : T) : error + T :=
  match ms with
  | [] => inr acc
  | (k, v) :: r => try (field acc (Fmt.to_lower k) v) (decode_members field r)
  end.

Definition decode_struct {T : Type} (field : T -> string -> JSON -> error + T)
    (gotype : string) (v : JSON) (old : T) : error + T :=
  match v with
  | JNull => inr old
  | JObject ms => decode_members field ms old
  | _ => type_error v gotype
  end.

(** A member that [omitempty] leaves out when [empty] holds. *)
Definition omitempty (empty : bool) (k : string) (v : JSON) : list (string * JSON) :=
  if empty then [] else [(k, v)].

Definition is_nil {A : Type} (l : list A) : bool :=
  match l with
  | [] => true
  | _ :: _ => false
  end.

End Json.

(** ** The Terraform SDK: values, validators *)

Module Sdk.

(** What [d.Get] returns and [d.Set] takes: an [interface{}] holding a
    string, an int, a bool, a list or a string-keyed map; [VNil] is the nil
    interface (the key names nothing in the schema). *)
Inductive Value : Type :=
| VNil
| VString (s : string)
| VInt (n : Z)
| VBool (b : bool)
| VList (l : list Value)
| VMap (m : list (string * Value)).

(** The type assertions [.(string)], [.(int)] and [.(bool)]: they panic on
    a value of another type. *)
Definition as_string (v : Value) : Go string :=
  match v with
  | VString s => ret s
  | _ => None
  end.

Definition as_int (v : Value) : Go Z :=
  match v with
  | VInt n => ret n
  | _ => None
  end.

Definition as_bool (v : Value) : Go bool :=
  match v with
  | VBool b => ret b
  | _ => None
  end.

(** [make([]T, n)]: the indices of the new slice; a negative length panics. *)
Definition make (n : Z) : Go (list nat) :=
  if (n <? 0)%Z then None else ret (seq 0 (Z.to_nat n)).

(** A map literal and [m[k] = v]. *)
Fixpoint map_lookup (k : string) (m : list (string * Value)) : option Value :=
  match m with
  | [] => None
  | (k', v) :: r => if String.eqb k k' then Some v else map_lookup k r
  end.

Fixpoint map_set (k : string) (v : Value) (m : list (string * Value)) : list (string * Value) :=
  match m with
  | [] => [(k, v)]
  | (k', v') :: r => if String.eqb k k' then (k, v) :: r else (k', v') :: map_set k v r
  end.

(** *** [helper/validation] *)

Definition is_space (c : ascii) : bool :=
  Ascii.eqb c " " || Fmt.in_range 9 13 c.

(** [validation.StringIsNotWhiteSpace]: [strings.TrimSpace] leaves something
    (white space is taken to be ASCII's). *)
Definition StringIsNotWhiteSpace (v : string) : bool :=
  negb (Fmt.all_chars is_space v).

(** [validation.StringInSlice(valid, ignoreCase)]. *)
Definition StringInSlice (valid : list string) (ignoreCase : bool) (v : string) : bool :=
  existsb (fun s => if ignoreCase then String.eqb (Fmt.to_lower v) (Fmt.to_lower s)
                    else String.eqb v s) valid.

(** [validation.IntBetween(min, max)]. *)
Definition IntBetween (min max : Z) (v : Z) : bool :=
  ((min <=? v) && (v <=? max))%Z.

(** [validation.StringIsJSON]: the empty string passes, any other string
    has to be a JSON text. *)
Definition StringIsJSON (v : string) : bool :=
  match v with
  | EmptyString => true
  | _ => match Json.parse v with
         | Some _ => true
         | None => false
         end
  end.

(** The regular expression [^[0-9a-z_]{3,32}$]: the whole string, three to
    thirty-two bytes, each a digit, a lower-case letter or an underscore. *)
Definition id_char (c : ascii) : bool :=
  Fmt.is_digit c || Fmt.is_lower c || Ascii.eqb c "_".

Definition matches_id (v : string) : bool :=
  (3 <=? String.length v)%nat && (String.length v <=? 32)%nat && Fmt.all_chars id_char v.

(** The regular expression
    [^[0-9a-zA-Z][0-9a-zA-Z\,\.\_\-\' ]{1,512}[0-9a-zA-Z\.]$]. *)
Definition alnum (c : ascii) : bool :=
  Fmt.is_digit c || Fmt.is_lower c || Fmt.is_upper c.

Definition description_char (c : ascii) : bool :=
  alnum c || Ascii.eqb c "," || Ascii.eqb c "." || Ascii.eqb c "_" || Ascii.eqb c "-"
  || Ascii.eqb c "'" || Ascii.eqb c " ".

Definition matches_description (v : string) : bool :=
  match v with
  | EmptyString => false
  | String c r =>
      alnum c
      && match Fmt.last_char r with
         | Some l => alnum l || Ascii.eqb l "."
         | None => false
         end
      && (1 <=? String.length (Fmt.but_last r))%nat
      && (String.length (Fmt.but_last r) <=? 512)%nat
      && Fmt.all_chars description_char (Fmt.but_last r)
  end.

End Sdk.

(** ** The HTTP client *)

(** One call of [sendRequest]. *)
Record Request : Type := {
  req_method : string;
  req_path : string;
  req_data : string
}.

(** What [sendRequest] returns: [(status, data, err)]. *)
Definition Response : Type := (Z * string * option error)%type.

(** [APIClient] and its [sendRequest] are not among the sources; they are
    taken as a parameter.  A client is any deterministic endpoint, a
    function from the requests sent so far (the last one being the one to
    answer) to the triple [sendRequest] returns, together with the log of
    what was sent.  The spec gives the transport the same shape:
    [send(method, path, body) -> (status_code, response_body) | TransportError]. *)
Record APIClient : Type := {
  endpoint : list Request -> Response;
  sent : list Request
}.

(** The client after the request [r], and the endpoint's answer to it. *)
Definition logged (api : APIClient) (r : Request) : APIClient :=
  {| endpoint := endpoint api; sent := (sent api ++ [r])%list |}.

Definition answer (api : APIClient) (r : Request) : Response :=
  endpoint api (sent api ++ [r])%list.

Definition sendRequest (api : APIClient) (method path data : string) : APIClient * Response :=
  let r := {| req_method := method; req_path := path; req_data := data |} in
  (logged api r, answer api r).

(** ** [resource_profile.go] *)

Module Profile.

Import Json Sdk.

(** *** The resource's data *)

(** One block of [reply] or [control], as [radiusAttribute] declares it. *)
Record Attribute : Type := {
  name : string;
  value : list string;
  op : string;
  expand : bool;
  do_xlat : bool;
  is_json : bool
}.

(** [schema.ResourceData] of a [radius_profile]: the tracked id and one
    field per entry of the schema, defaults already applied. *)
Record ResourceData : Type := {
  Id : string;
  operator_id : string;
  profile_id : string;
  enabled : bool;
  weight : Z;
  depends : list string;
  description : string;
  parameter_schema : string;
  reply : list Attribute;
  control : list Attribute
}.

Definition zero_attribute : Attribute :=
  {| name := ""; value := []; op := ""; expand := false; do_xlat := false; is_json := false |}.

Definition attribute_value (a : Attribute) : Value :=
  VMap [("name", VString (name a)); ("value", VList (map VString (value a)));
        ("op", VString (op a)); ("expand", VBool (expand a));
        ("do_xlat", VBool (do_xlat a)); ("is_json", VBool (is_json a))].

(** A field that holds no list: only the bare key reads it. *)
Definition scalar_at (v : Value) (rest : list string) : Value :=
  match rest with
  | [] => v
  | _ :: _ => VNil
  end.

(** A list of strings under a key: the key itself, [key.#] (the length) and
    [key.i]; an index past the end reads the zero value. *)
Definition strings_at (l : list string) (rest : list string) : Value :=
  match rest with
  | [] => VList (map VString l)
  | [i] =>
      match Fmt.atoi i with
      | Some n => VString (nth n l "")
      | None => if String.eqb i "#" then VInt (Z.of_nat (List.length l)) else VNil
      end
  | _ => VNil
  end.

Definition attribute_at (a : Attribute) (rest : list string) : Value :=
  match rest with
  | [] => attribute_value a
  | f :: rest' =>
      if String.eqb f "name" then scalar_at (VString (name a)) rest'
      else if String.eqb f "value" then strings_at (value a) rest'
      else if String.eqb f "op" then scalar_at (VString (op a)) rest'
      else if String.eqb f "expand" then scalar_at (VBool (expand a)) rest'
      else if String.eqb f "do_xlat" then scalar_at (VBool (do_xlat a)) rest'
      else if String.eqb f "is_json" then scalar_at (VBool (is_json a)) rest'
      else VNil
  end.

Definition attributes_at (l : list Attribute) (rest : list string) : Value :=
  match rest with
  | [] => VList (map attribute_value l)
  | i :: rest' =>
      match Fmt.atoi i with
      | Some n => attribute_at (nth n l zero_attribute) rest'
      | None =>
          if String.eqb i "#" then scalar_at (VInt (Z.of_nat (List.length l))) rest' else VNil
      end
  end.

(** [d.Get(key)]: the key is a dotted address into the schema. *)
Definition Get (d : ResourceData) (key : string) : Value :=
  match Fmt.split "." key with
  | [] => VNil
  | f :: rest =>
      if String.eqb f "operator_id" then scalar_at (VString (operator_id d)) rest
      else if String.eqb f "profile_id" then scalar_at (VString (profile_id d)) rest
      else if String.eqb f "enabled" then scalar_at (VBool (enabled d)) rest
      else if String.eqb f "weight" then scalar_at (VInt (weight d)) rest
      else if String.eqb f "depends" then strings_at (depends d) rest
      else if String.eqb f "description" then scalar_at (VString (description d)) rest
      else if String.eqb f "parameter_schema" then scalar_at (VString (parameter_schema d)) rest
      else if String.eqb f "reply" then attributes_at (reply d) rest
      else if String.eqb f "control" then attributes_at (control d) rest
      else VNil
  end.

(** [d.SetId(v)] and [d.Id()]. *)
Definition SetId (d : ResourceData) (v : string) : ResourceData :=
  {| Id := v; operator_id := operator_id d; profile_id := profile_id d;
     enabled := enabled d; weight := weight d; depends := depends d;
     description := description d; parameter_schema := parameter_schema d;
     reply := reply d; control := control d |}.

(** What [d.Set] accepts for a string, a list of strings and a block. *)
Definition string_of_value (v : Value) : option string :=
  match v with
  | VString s => Some s
  | _ => None
  end.

Definition strings_of_value (v : Value) : option (list string) :=
  match v with
  | VList l => mapM string_of_value l
  | _ => None
  end.

Definition member_string (m : list (string * Value)) (k : string) : option string :=
  match map_lookup k m with
  | None => Some ""
  | Some v => string_of_value v
  end.

Definition member_bool (m : list (string * Value)) (k : string) : option bool :=
  match map_lookup k m with
  | None => Some false
  | Some (VBool b) => Some b
  | Some _ => None
  end.

Definition member_strings (m : list (string * Value)) (k : string) : option (list string) :=
  match map_lookup k m with
  | None => Some []
  | Some v => strings_of_value v
  end.

Definition attribute_of_value (v : Value) : option Attribute :=
  match v with
  | VMap m =>
      n <- member_string m "name" ;;
      vs <- member_strings m "value" ;;
      o <- member_string m "op" ;;
      e <- member_bool m "expand" ;;
      x <- member_bool m "do_xlat" ;;
      j <- member_bool m "is_json" ;;
      ret {| name := n; value := vs; op := o; expand := e; do_xlat := x; is_json := j |}
  | _ => None
  end.

Definition attributes_of_value (v : Value) : option (list Attribute) :=
  match v with
  | VList l => mapM attribute_of_value l
  | _ => None
  end.

(** The data with one field replaced. *)
Definition with_operator_id (d : ResourceData) (s : string) : ResourceData :=
  {| Id := Id d; operator_id := s; profile_id := profile_id d; enabled := enabled d;
     weight := weight d; depends := depends d; description := description d;
     parameter_schema := parameter_schema d; reply := reply d; control := control d |}.

Definition with_profile_id (d : ResourceData) (s : string) : ResourceData :=
  {| Id := Id d; operator_id := operator_id d; profile_id := s; enabled := enabled d;
     weight := weight d; depends := depends d; description := description d;
     parameter_schema := parameter_schema d; reply := reply d; control := control d |}.

Definition with_enabled (d : ResourceData) (b : bool) : ResourceData :=
  {| Id := Id d; operator_id := operator_id d; profile_id := profile_id d; enabled := b;
     weight := weight d; depends := depends d; description := description d;
     parameter_schema := parameter_schema d; reply := reply d; control := control d |}.

Definition with_weight (d : ResourceData) (n : Z) : ResourceData :=
  {| Id := Id d; operator_id := operator_id d; profile_id := profile_id d;
     enabled := enabled d; weight := n; depends := depends d;
     description := description d; parameter_schema := parameter_schema d;
     reply := reply d; control := control d |}.

Definition with_depends (d : ResourceData) (l : list string) : ResourceData :=
  {| Id := Id d; operator_id := operator_id d; profile_id := profile_id d;
     enabled := enabled d; weight := weight d; depends := l;
     description := description d; parameter_schema := parameter_schema d;
     reply := reply d; control := control d |}.

Definition with_description (d : ResourceData) (s : string) : ResourceData :=
  {| Id := Id d; operator_id := operator_id d; profile_id := profile_id d;
     enabled := enabled d; weight := weight d; depends := depends d; description := s;
     parameter_schema := parameter_schema d; reply := reply d; control := control d |}.

Definition with_parameter_schema (d : ResourceData) (s : string) : ResourceData :=
  {| Id := Id d; operator_id := operator_id d; profile_id := profile_id d;
     enabled := enabled d; weight := weight d; depends := depends d;
     description := description d; parameter_schema := s;
     reply := reply d; control := control d |}.

Definition with_reply (d : ResourceData) (l : list Attribute) : ResourceData :=
  {| Id := Id d; operator_id := operator_id d; profile_id := profile_id d;
     enabled := enabled d; weight := weight d; depends := depends d;
     description := description d; parameter_schema := parameter_schema d;
     reply := l; control := control d |}.

Definition with_control (d : ResourceData) (l : list Attribute) : ResourceData :=
  {| Id := Id d; operator_id := operator_id d; profile_id := profile_id d;
     enabled := enabled d; weight := weight d; depends := depends d;
     description := description d; parameter_schema := parameter_schema d;
     reply := reply d; control := l |}.

(** A field written when the value has the field's type, left alone when
    it has not. *)
Definition store {A : Type} (d : ResourceData) (v : option A)
    (w : ResourceData -> A -> ResourceData) : ResourceData :=
  match v with
  | Some a => w d a
  | None => d
  end.

Definition bool_of_value (v : Value) : option bool :=
  match v with
  | VBool b => Some b
  | _ => None
  end.

Definition int_of_value (v : Value) : option Z :=
  match v with
  | VInt n => Some n
  | _ => None
  end.

(** [d.Set(key, value)] with its error dropped, as every call in the
    resource drops it: a value the field's type does not take, or a key the
    schema does not have, leaves the data as it was. *)
Definition Set_ (d : ResourceData) (key : string) (v : Value) : ResourceData :=
  if String.eqb key "operator_id" then store d (string_of_value v) with_operator_id
  else if String.eqb key "profile_id" then store d (string_of_value v) with_profile_id
  else if String.eqb key "enabled" then store d (bool_of_value v) with_enabled
  else if String.eqb key "weight" then store d (int_of_value v) with_weight
  else if String.eqb key "depends" then store d (strings_of_value v) with_depends
  else if String.eqb key "description" then store d (string_of_value v) with_description
  else if String.eqb key "parameter_schema" then
    store d (string_of_value v) with_parameter_schema
  else if String.eqb key "reply" then store d (attributes_of_value v) with_reply
  else if String.eqb key "control" then store d (attributes_of_value v) with_control
  else d.

(** *** The JSON structures *)

Record RadiusAttribute : Type := {
  Name : string;     (* json:"name" *)
  Value_ : list string; (* json:"value" *)
  OP : string;       (* json:"op,omitempty" *)
  Expand : bool;     (* json:"expand" *)
  DoXlat : bool;     (* json:"do_xlat" *)
  IsJson : bool      (* json:"is_json" *)
}.

Record RadiusProfileAttributes : Type := {
  Reply : list RadiusAttribute;   (* json:"reply,omitempty" *)
  Control : list RadiusAttribute  (* json:"control,omitempty" *)
}.

Record RadiusProfile : Type := {
  ID : string;                      (* json:"id" *)
  State : string;                   (* json:"state" *)
  Weight : Z;                       (* json:"weight" *)
  Depends : list string;            (* json:"depends,omitempty" *)
  Description : string;             (* json:"description,omitempty" *)
  Radius : RadiusProfileAttributes; (* json:"radius" *)
  Schema : option JSON              (* json:"parameter_schema,omitempty" *)
}.

Definition zero_RadiusAttribute : RadiusAttribute :=
  {| Name := ""; Value_ := []; OP := ""; Expand := false; DoXlat := false; IsJson := false |}.

Definition zero_RadiusProfileAttributes : RadiusProfileAttributes :=
  {| Reply := []; Control := [] |}.

(** [RadiusProfile{}] *)
Definition zero_RadiusProfile : RadiusProfile :=
  {| ID := ""; State := ""; Weight := 0; Depends := []; Description := "";
     Radius := zero_RadiusProfileAttributes; Schema := None |}.

(** What [json.Unmarshal] does with one member of an object, by the
    structures' field tags. *)
Definition field_RadiusAttribute (a : RadiusAttribute) (k : string) (v : JSON)
    : error + RadiusAttribute :=
  if String.eqb k "name" then
    try (decode_string v (Name a)) (fun s =>
      inr {| Name := s; Value_ := Value_ a; OP := OP a; Expand := Expand a;
             DoXlat := DoXlat a; IsJson := IsJson a |})
  else if String.eqb k "value" then
    try (decode_slice (fun e => decode_string e "") "[]string" v) (fun l =>
      inr {| Name := Name a; Value_ := l; OP := OP a; Expand := Expand a;
             DoXlat := DoXlat a; IsJson := IsJson a |})
  else if String.eqb k "op" then
    try (decode_string v (OP a)) (fun s =>
      inr {| Name := Name a; Value_ := Value_ a; OP := s; Expand := Expand a;
             DoXlat := DoXlat a; IsJson := IsJson a |})
  else if String.eqb k "expand" then
    try (decode_bool v (Expand a)) (fun b =>
      inr {| Name := Name a; Value_ := Value_ a; OP := OP a; Expand := b;
             DoXlat := DoXlat a; IsJson := IsJson a |})
  else if String.eqb k "do_xlat" then
    try (decode_bool v (DoXlat a)) (fun b =>
      inr {| Name := Name a; Value_ := Value_ a; OP := OP a; Expand := Expand a;
             DoXlat := b; IsJson := IsJson a |})
  else if String.eqb k "is_json" then
    try (decode_bool v (IsJson a)) (fun b =>
      inr {| Name := Name a; Value_ := Value_ a; OP := OP a; Expand := Expand a;
             DoXlat := DoXlat a; IsJson := b |})
  else inr a.

Definition decode_RadiusAttribute (v : JSON) (old : RadiusAttribute) : error + RadiusAttribute :=
  decode_struct field_RadiusAttribute "RadiusAttribute" v old.

Definition decode_RadiusAttributes (v : JSON) : error + list RadiusAttribute :=
  decode_slice (fun e => decode_RadiusAttribute e zero_RadiusAttribute) "[]RadiusAttribute" v.

Definition field_RadiusProfileAttributes (a : RadiusProfileAttributes) (k : string) (v : JSON)
    : error + RadiusProfileAttributes :=
  if String.eqb k "reply" then
    try (decode_RadiusAttributes v) (fun l => inr {| Reply := l; Control := Control a |})
  else if String.eqb k "control" then
    try (decode_RadiusAttributes v) (fun l => inr {| Reply := Reply a; Control := l |})
  else inr a.

Definition field_RadiusProfile (p : RadiusProfile) (k : string) (v : JSON)
    : error + RadiusProfile :=
  if String.eqb k "id" then
    try (decode_string v (ID p)) (fun s =>
      inr {| ID := s; State := State p; Weight := Weight p; Depends := Depends p;
             Description := Description p; Radius := Radius p; Schema := Schema p |})
  else if String.eqb k "state" then
    try (decode_string v (State p)) (fun s =>
      inr {| ID := ID p; State := s; Weight := Weight p; Depends := Depends p;
             Description := Description p; Radius := Radius p; Schema := Schema p |})
  else if String.eqb k "weight" then
    try (decode_int v (Weight p)) (fun n =>
      inr {| ID := ID p; State := State p; Weight := n; Depends := Depends p;
             Description := Description p; Radius := Radius p; Schema := Schema p |})
  else if String.eqb k "depends" then
    try (decode_slice (fun e => decode_string e "") "[]string" v) (fun l =>
      inr {| ID := ID p; State := State p; Weight := Weight p; Depends := l;
             Description := Description p; Radius := Radius p; Schema := Schema p |})
  else if String.eqb k "description" then
    try (decode_string v (Description p)) (fun s =>
      inr {| ID := ID p; State := State p; Weight := Weight p; Depends := Depends p;
             Description := s; Radius := Radius p; Schema := Schema p |})
  else if String.eqb k "radius" then
    try (decode_struct field_RadiusProfileAttributes "RadiusProfileAttributes" v (Radius p))
      (fun r =>
        inr {| ID := ID p; State := State p; Weight := Weight p; Depends := Depends p;
               Description := Description p; Radius := r; Schema := Schema p |})
  else if String.eqb k "parameter_schema" then
    inr {| ID := ID p; State := State p; Weight := Weight p; Depends := Depends p;
           Description := Description p; Radius := Radius p;
           Schema := match v with
                     | JNull => None
                     | _ => Some v
                     end |}
  else inr p.

(** [json.Unmarshal([]byte(data), &res)] for [res := RadiusProfile{}]: the
    text has to be JSON, then its value is fitted to the structure. *)
Definition json_Unmarshal (data : string) : error + RadiusProfile :=
  match Json.parse data with
  | None => inl SyntaxError
  | Some v => decode_struct field_RadiusProfile "RadiusProfile" v zero_RadiusProfile
  end.

(** The document [json.Marshal] writes for the structures, by the same
    tags: fields in order, [omitempty] fields left out when empty. *)
Definition marshal_RadiusAttribute (a : RadiusAttribute) : JSON :=
  JObject ([("name", JString (Name a)); ("value", JArray (map JString (Value_ a)))]
           ++ omitempty (String.eqb (OP a) "") "op" (JString (OP a))
           ++ [("expand", JBool (Expand a)); ("do_xlat", JBool (DoXlat a));
               ("is_json", JBool (IsJson a))])%list.

Definition marshal_RadiusProfileAttributes (r : RadiusProfileAttributes) : JSON :=
  JObject (omitempty (is_nil (Reply r)) "reply" (JArray (map marshal_RadiusAttribute (Reply r)))
           ++ omitempty (is_nil (Control r)) "control"
                (JArray (map marshal_RadiusAttribute (Control r))))%list.

Definition marshal_RadiusProfile (p : RadiusProfile) : JSON :=
  JObject ([("id", JString (ID p)); ("state", JString (State p));
            ("weight", JNumber (literal_of_int (Weight p)))]
           ++ omitempty (is_nil (Depends p)) "depends" (JArray (map JString (Depends p)))
           ++ omitempty (String.eqb (Description p) "") "description" (JString (Description p))
           ++ [("radius", marshal_RadiusProfileAttributes (Radius p))]
           ++ match Schema p with
              | None => []
              | Some v => [("parameter_schema", v)]
              end)%list.

Definition json_Marshal (p : RadiusProfile) : string := render (marshal_RadiusProfile p).

(** *** The resource's functions *)

(** The body of [for _, v := range []string{"reply", "control"}]: the
    attributes read under the key [v]. *)
Definition buildAttributes (d : ResourceData) (v : string) : Go (list RadiusAttribute) :=
  count <- as_int (Get d (v ++ ".#")) ;;
  indices <- make count ;;
  mapM (fun i =>
          let prefix := v ++ "." ++ Fmt.itoa i ++ "." in
          n <- as_string (Get d (prefix ++ "name")) ;;
          o <- as_string (Get d (prefix ++ "op")) ;;
          e <- as_bool (Get d (prefix ++ "expand")) ;;
          x <- as_bool (Get d (prefix ++ "do_xlat")) ;;
          isj <- as_bool (Get d (prefix ++ "is_json")) ;;
          countValues <- as_int (Get d (prefix ++ "value.#")) ;;
          js <- make countValues ;;
          values <- mapM (fun j => as_string (Get d (prefix ++ "value." ++ Fmt.itoa j))) js ;;
          ret {| Name := n; Value_ := values; OP := o; Expand := e; DoXlat := x; IsJson := isj |})
       indices.

(** [buildProfileObject]: the id is set on the way; the error returned is
    always nil. *)
Definition buildProfileObject (d : ResourceData) (api : APIClient)
    : Go (ResourceData * RadiusProfile * option error) :=
  id <- as_string (Get d "profile_id") ;;
  w <- as_int (Get d "weight") ;;
  desc <- as_string (Get d "description") ;;
  en <- as_bool (Get d "enabled") ;;
  let state := if en then "enabled" else "disabled" in
  operator_id <- as_string (Get d "operator_id") ;;
  let d := SetId d (operator_id ++ "/" ++ id) in
  dependsCount <- as_int (Get d "depends.#") ;;
  indices <- make dependsCount ;;
  depends <- mapM (fun i => as_string (Get d ("depends." ++ Fmt.itoa i))) indices ;;
  reply <- buildAttributes d "reply" ;;
  control <- buildAttributes d "control" ;;
  ret (d,
       {| ID := id; State := state; Weight := w; Depends := depends; Description := desc;
          Radius := {| Reply := reply; Control := control |}; Schema := None |},
       None).

(** [getProfile]: a transport error is returned as it is; a 404 is
    "gone, return nothing"; any other response is unmarshalled. *)
Definition getProfile (api : APIClient) (operator_id id : string)
    : APIClient * option RadiusProfile * option error :=
  let path := "/operator/" ++ operator_id ++ "/profile/" ++ id in
  let '(api, (status, data, err)) := sendRequest api "GET" path "" in
  match err with
  | Some e => (api, None, Some e)
  | None =>
      if (status =? 404)%Z then (api, None, None)
      else
        match json_Unmarshal data with
        | inl e => (api, None, Some e)
        | inr res => (api, Some res, None)
        end
  end.

(** The map built for one attribute on read. *)
Definition attribute_map (c : RadiusAttribute) : Value :=
  let t := [("name", VString (Name c)); ("op", VString (OP c)); ("expand", VBool (Expand c));
            ("do_xlat", VBool (DoXlat c)); ("is_json", VBool (IsJson c))] in
  let valueList := map VString (Value_ c) in
  VMap (map_set "value" (VList valueList) t).

(** [resourceProfileRead]: [obj == nil] ("its gone") clears the id; a
    fetched profile is written field by field. *)
Definition resourceProfileRead (d : ResourceData) (meta : APIClient)
    : Go (ResourceData * APIClient * option error) :=
  let api := meta in
  operator_id <- as_string (Get d "operator_id") ;;
  profile_id <- as_string (Get d "profile_id") ;;
  let '(api, obj, err) := getProfile api operator_id profile_id in
  match err with
  | Some e => ret (d, api, Some e)
  | None =>
      match obj with
      | None => ret (SetId d "", api, None)
      | Some obj =>
          let d := Set_ d "profile_id" (VString (ID obj)) in
          let d := Set_ d "enabled" (VBool (String.eqb (State obj) "enabled")) in
          let d := Set_ d "weight" (VInt (Weight obj)) in
          let d := Set_ d "description" (VString (Description obj)) in
          let dependsList := map VString (Depends obj) in
          let d := Set_ d "depends" (VList dependsList) in
          let replyList := map attribute_map (Reply (Radius obj)) in
          let d := Set_ d "reply" (VList replyList) in
          let controlList := map attribute_map (Control (Radius obj)) in
          let d := Set_ d "control" (VList controlList) in
          ret (d, api, None)
      end
  end.

(** [resourceProfileCreate]: the structure is built (and logged); at
    ["// do add"] nothing is sent; the read follows. *)
Definition resourceProfileCreate (d : ResourceData) (meta : APIClient)
    : Go (ResourceData * APIClient * option error) :=
  let api := meta in
  '(d, itm, err) <- buildProfileObject d api ;;
  match err with
  | Some e => ret (d, api, Some e)
  | None => resourceProfileRead d meta
  end.

(** [resourceProfileUpdate] and [resourceProfileDelete]: [return nil]. *)
Definition resourceProfileUpdate (d : ResourceData) (meta : APIClient)
    : Go (ResourceData * APIClient * option error) :=
  ret (d, meta, None).

Definition resourceProfileDelete (d : ResourceData) (meta : APIClient)
    : Go (ResourceData * APIClient * option error) :=
  ret (d, meta, None).

(** *** What the functions compute *)

(** The structure [buildProfileObject] builds from a resource's data. *)
Definition attribute_struct (a : Attribute) : RadiusAttribute :=
  {| Name := name a; Value_ := value a; OP := op a; Expand := expand a;
     DoXlat := do_xlat a; IsJson := is_json a |}.

Definition profile_struct (d : ResourceData) : RadiusProfile :=
  {| ID := profile_id d;
     State := if enabled d then "enabled" else "disabled";
     Weight := weight d;
     Depends := depends d;
     Description := description d;
     Radius := {| Reply := map attribute_struct (reply d);
                  Control := map attribute_struct (control d) |};
     Schema := None |}.

(** The data [resourceProfileRead] leaves when the profile [obj] was
    fetched: the id, [operator_id] and [parameter_schema] stay. *)
Definition attribute_read (c : RadiusAttribute) : Attribute :=
  {| name := Name c; value := Value_ c; op := OP c; expand := Expand c;
     do_xlat := DoXlat c; is_json := IsJson c |}.

Definition data_read (d : ResourceData) (obj : RadiusProfile) : ResourceData :=
  {| Id := Id d;
     operator_id := operator_id d;
     profile_id := ID obj;
     enabled := String.eqb (State obj) "enabled";
     weight := Weight obj;
     depends := Depends obj;
     description := Description obj;
     parameter_schema := parameter_schema d;
     reply := map attribute_read (Reply (Radius obj));
     control := map attribute_read (Control (Radius obj)) |}.

(** The data a create tracks: the id is [operator_id/profile_id]. *)
Definition tracked (d : ResourceData) : ResourceData :=
  SetId d (operator_id d ++ "/" ++ profile_id d).

(** The keys under [v] read the list of blocks [l] of [d]. *)
Definition block_key (d : ResourceData) (v : string) (l : list Attribute) : Prop :=
  forall key rest, Fmt.split "." key = v :: rest -> Get d key = attributes_at l rest.

(** The one request a read sends. *)
Definition read_request (d : ResourceData) : Request :=
  {| req_method := "GET";
     req_path := "/operator/" ++ operator_id d ++ "/profile/" ++ profile_id d;
     req_data := "" |}.

(** *** The schema *)

(** A [reply] or [control] block as written in a configuration: [op],
    [expand], [do_xlat] and [is_json] are optional. *)
Record AttributeConfig : Type := {
  cfg_name : string;
  cfg_value : list string;
  cfg_op : option string;
  cfg_expand : option bool;
  cfg_do_xlat : option bool;
  cfg_is_json : option bool
}.

(** A [radius_profile] as written in a configuration: [operator_id] and
    [profile_id] are required, the rest is optional. *)
Record ProfileConfig : Type := {
  cfg_operator_id : string;
  cfg_profile_id : string;
  cfg_enabled : option bool;
  cfg_weight : option Z;
  cfg_depends : list string;
  cfg_description : option string;
  cfg_parameter_schema : option string;
  cfg_reply : list AttributeConfig;
  cfg_control : list AttributeConfig
}.

(** The operators [radiusAttribute] lets [op] take. *)
Definition op_choices : list string := ["="; ":="; "+="; "|="; "|:="; "|+="; "|--"].

(** The outcome of one [ValidateFunc]: the key at fault, or nothing. *)
Definition check (ok : bool) (key : string) : list string :=
  if ok then [] else [key].

(** An optional attribute is validated only when the configuration sets it. *)
Definition check_opt {A : Type} (f : A -> bool) (v : option A) (key : string) : list string :=
  match v with
  | Some a => check (f a) key
  | None => []
  end.

(** The elements of a list, each under its key [key.i]. *)
Fixpoint check_each {A : Type} (f : string -> A -> list string) (key : string) (i : nat)
    (l : list A) : list string :=
  match l with
  | [] => []
  | a :: r => List.app (f (key ++ "." ++ Fmt.itoa i) a) (check_each f key (S i) r)
  end.

Definition validate_radiusAttribute (key : string) (a : AttributeConfig) : list string :=
  List.app (check (StringIsNotWhiteSpace (cfg_name a)) (key ++ ".name"))
           (check_opt (StringInSlice op_choices false) (cfg_op a) (key ++ ".op")).

(** The [ValidateFunc]s of [resourceProfile]'s schema over a configuration:
    the keys whose values they refuse. *)
Definition validate_resourceProfile (c : ProfileConfig) : list string :=
  (check (StringIsNotWhiteSpace (cfg_operator_id c)) "operator_id"
   ++ check (matches_id (cfg_profile_id c)) "profile_id"
   ++ check_opt (IntBetween 1 100000) (cfg_weight c) "weight"
   ++ check_each (fun k v => check (matches_id v) k) "depends" 0 (cfg_depends c)
   ++ check_opt matches_description (cfg_description c) "description"
   ++ check_opt StringIsJSON (cfg_parameter_schema c) "parameter_schema"
   ++ check_each validate_radiusAttribute "reply" 0 (cfg_reply c)
   ++ check_each validate_radiusAttribute "control" 0 (cfg_control c))%list.

Definition default {A : Type} (dflt : A) (v : option A) : A :=
  match v with
  | Some a => a
  | None => dflt
  end.

(** The schema's [Default]s. *)
Definition attribute_of_config (a : AttributeConfig) : Attribute :=
  {| name := cfg_name a; value := cfg_value a; op := default ":=" (cfg_op a);
     expand := default false (cfg_expand a); do_xlat := default false (cfg_do_xlat a);
     is_json := default false (cfg_is_json a) |}.

(** The [ResourceData] a new resource starts from: no id yet, the
    configuration's values, the defaults where it gives none. *)
Definition data_of_config (c : ProfileConfig) : ResourceData :=
  {| Id := ""; operator_id := cfg_operator_id c; profile_id := cfg_profile_id c;
     enabled := default true (cfg_enabled c); weight := default 100%Z (cfg_weight c);
     depends := cfg_depends c; description := default "" (cfg_description c);
     parameter_schema := default "" (cfg_parameter_schema c);
     reply := map attribute_of_config (cfg_reply c);
     control := map attribute_of_config (cfg_control c) |}.

(** How a CRUD call on a configuration ends. *)
Inductive Outcome : Type :=
| ValidationError (keys : list string)
| Returned (d : ResourceData) (err : option error)
| Panicked.

(** [resourceProfile()]: the callbacks the provider registers. *)
Record Resource : Type := {
  Create : ResourceData -> APIClient -> Go (ResourceData * APIClient * option error);
  Read : ResourceData -> APIClient -> Go (ResourceData * APIClient * option error);
  Update : ResourceData -> APIClient -> Go (ResourceData * APIClient * option error);
  Delete : ResourceData -> APIClient -> Go (ResourceData * APIClient * option error);
  Validate : ProfileConfig -> list string
}.

Definition resourceProfile : Resource :=
  {| Create := resourceProfileCreate;
     Read := resourceProfileRead;
     Update := resourceProfileUpdate;
     Delete := resourceProfileDelete;
     Validate := validate_resourceProfile |}.

(** A configuration out of bounds: a [profile_id] that does not match, a
    [weight] outside 1..100000, or an [op] that is none of [op_choices]. *)
Definition out_of_bounds (c : ProfileConfig) : Prop :=
  matches_id (cfg_profile_id c) = false
  \/ (exists w, cfg_weight c = Some w /\ ~ (1 <= w <= 100000)%Z)
  \/ (exists a o, (In a (cfg_reply c) \/ In a (cfg_control c))
                  /\ cfg_op a = Some o /\ ~ In o op_choices).

(** Modelled from the spec: the configuration layer that calls the
    resource (the SDK's, not among the sources).  A configuration is
    validated first; one that fails is reported as a [ValidationError] and
    the resource's callback is not run; otherwise [Create] runs on the data
    with the defaults applied. *)
Definition apply_create (r : Resource) (c : ProfileConfig) (api : APIClient)
    : Outcome * APIClient :=
  match Validate r c with
  | [] =>
      match Create r (data_of_config c) api with
      | Some (d, api', err) => (Returned d err, api')
      | None => (Panicked, api)
      end
  | keys => (ValidationError keys, api)
  end.

End Profile.

(** ** The token manager *)

Module TokenManager.

(** Modelled from the spec: the access token ([NewAPIClient] and the OAuth
    client behind it are not among the sources): bearer string, expiry
    timestamp, granted scopes. *)
Record AccessToken : Type := {
  bearer : string;
  expiry : Z;
  scopes : list string
}.

(** Modelled from the spec: the OAuth block of the client configuration, as
    [configureProvider] fills it. *)
Record OAuthConfig : Type := {
  oauthClientID : string;
  oauthClientSecret : string;
  oauthTokenURL : string;
  oauthScopes : list string
}.

(** Modelled from the spec: the answer of the token endpoint to a
    client-credentials grant request: an HTTP status and, when the body
    parses, [access_token], [expires_in] (seconds) and [scope]. *)
Record GrantResponse : Type := {
  grant_status : Z;
  grant_body : option (string * Z * list string)
}.

(** Modelled from the spec: the manager's state: the cached token and the
    number of grant requests made so far. *)
Record Manager : Type := {
  config : option OAuthConfig;
  cached : option AccessToken;
  grants : nat
}.

Inductive TokenResult : Type :=
| Unauthenticated
| Bearer (t : AccessToken)
| AuthError (status : Z).

(** Modelled from the spec: a token is usable at [now] when its expiry is
    after [now]. *)
Definition valid_at (now : Z) (t : AccessToken) : bool := (now <? expiry t)%Z.

Definition is_success (status : Z) : bool := ((200 <=? status) && (status <? 300))%Z.

(** Modelled from the spec: the client-credentials grant request and the
    caching of its result; a non-success status or an unparsable body is an
    [AuthError] and leaves nothing cached. *)
Definition request_grant (endpoint : OAuthConfig -> Z -> GrantResponse) (c : OAuthConfig)
    (now : Z) (m : Manager) : Manager * TokenResult :=
  let r := endpoint c now in
  let failed := ({| config := config m; cached := None; grants := S (grants m) |},
                 AuthError (grant_status r)) in
  match grant_body r with
  | Some (tok, expires_in, sc) =>
      if is_success (grant_status r) then
        let t := {| bearer := tok; expiry := now + expires_in; scopes := sc |} in
        ({| config := config m; cached := Some t; grants := S (grants m) |}, Bearer t)
      else failed
  | None => failed
  end.

(** Modelled from the spec: [get_token()] (section 4.2).  Without an OAuth
    configuration it is a no-op.  A cached token whose expiry is after
    [now] is returned; with no token cached, or one whose expiry is at or
    before [now], a client-credentials grant is requested from [endpoint]
    and its result cached. *)
Definition get_token (endpoint : OAuthConfig -> Z -> GrantResponse) (now : Z) (m : Manager)
    : Manager * TokenResult :=
  match config m with
  | None => (m, Unauthenticated)
  | Some c =>
      match cached m with
      | Some t => if valid_at now t then (m, Bearer t) else request_grant endpoint c now m
      | None => request_grant endpoint c now m
      end
  end.

End TokenManager.

(** ** Sample inputs *)

Module Sample.

Import Profile.

(** A JSON text written with ['] where the text has a double quote. *)
Fixpoint json (s : string) : string :=
  match s with
  | EmptyString => EmptyString
  | String c r => String (if Ascii.eqb c "'" then Json.dquote else c) (json r)
  end.

Definition framed_ip : Attribute :=
  {| name := "Framed-IP-Address"; value := ["10.0.0.1"; "10.0.0.2"]; op := ":=";
     expand := false; do_xlat := true; is_json := false |}.

(** The profile of the spec's scenario: [abc], weight 50, enabled. *)
Definition abc : ResourceData :=
  {| Id := ""; operator_id := "op1"; profile_id := "abc"; enabled := true; weight := 50;
     depends := ["base_profile"]; description := "A sample profile.";
     parameter_schema := ""; reply := [framed_ip]; control := [] |}.

(** A client whose endpoint answers every request with [r]. *)
Definition replying (r : Response) : APIClient :=
  {| endpoint := fun _ => r; sent := [] |}.

(** An endpoint that stores what is POSTed and serves it to a later GET:
    201 with the body to a POST, 200 with the last POSTed body to a GET,
    404 to a GET when nothing was POSTed. *)
Definition storing (log : list Request) : Response :=
  match rev log with
  | [] => (500%Z, "", None)
  | r :: earlier =>
      if String.eqb (req_method r) "POST" then (201%Z, req_data r, None)
      else match find (fun e => String.eqb (req_method e) "POST") earlier with
           | Some e => (200%Z, req_data e, None)
           | None => (404%Z, "", None)
           end
  end.

Definition fakeserver : APIClient := {| endpoint := storing; sent := [] |}.

(** A configuration whose one [reply] attribute has the operator [bogus]. *)
Definition bogus : ProfileConfig :=
  {| cfg_operator_id := "op1"; cfg_profile_id := "abc"; cfg_enabled := None;
     cfg_weight := Some 50%Z; cfg_depends := []; cfg_description := None;
     cfg_parameter_schema := None;
     cfg_reply := [{| cfg_name := "Reply-Message"; cfg_value := ["hello"];
                      cfg_op := Some "bogus"; cfg_expand := None; cfg_do_xlat := None;
                      cfg_is_json := None |}];
     cfg_control := [] |}.

(** A token endpoint that grants [tok] for an hour. *)
Definition hourly (c : TokenManager.OAuthConfig) (now : Z) : TokenManager.GrantResponse :=
  {| TokenManager.grant_status := 200;
     TokenManager.grant_body := Some ("tok", 3600%Z, TokenManager.oauthScopes c) |}.

Definition oauth : TokenManager.OAuthConfig :=
  {| TokenManager.oauthClientID := "test"; TokenManager.oauthClientSecret := "secret";
     TokenManager.oauthTokenURL := "http://foo.bar/token";
     TokenManager.oauthScopes := ["radius"] |}.

(** A manager whose cached token expired at time 100. *)
Definition stale : TokenManager.Manager :=
  {| TokenManager.config := Some oauth;
     TokenManager.cached := Some {| TokenManager.bearer := "old"; TokenManager.expiry := 100;
                                    TokenManager.scopes := ["radius"] |};
     TokenManager.grants := 1 |}.

(** The token [hourly] grants at time 500, and the manager that caches it. *)
Definition fresh : TokenManager.AccessToken :=
  {| TokenManager.bearer := "tok"; TokenManager.expiry := 4100;
     TokenManager.scopes := ["radius"] |}.

Definition refreshed : TokenManager.Manager :=
  {| TokenManager.config := Some oauth; TokenManager.cached := Some fresh;
     TokenManager.grants := 2 |}.

End Sample.

(** ** The resource in use *)

Module Lifecycle.

Import Sdk Profile.

(** One call of a callback of [resourceProfile()]. *)
Inductive Callback : Type :=
| CallCreate
| CallRead
| CallUpdate
| CallDelete.

Definition call (r : Resource) (c : Callback)
    : ResourceData -> APIClient -> Go (ResourceData * APIClient * option error) :=
  match c with
  | CallCreate => Create r
  | CallRead => Read r
  | CallUpdate => Update r
  | CallDelete => Delete r
  end.

(** Callbacks run one after the other on the same data and client,
    whatever error each returns. *)
Fixpoint run (r : Resource) (cs : list Callback) (d : ResourceData) (api : APIClient)
    : Go (ResourceData * APIClient) :=
  match cs with
  | [] => ret (d, api)
  | c :: rest => '(d', api', _) <- call r c d api ;; run r rest d' api'
  end.

(** A request the resource may send: a GET without a body. *)
Definition plain_get (r : Request) : Prop :=
  req_method r = "GET" /\ req_data r = "".

(** [Importer: State: schema.ImportStatePassthrough]: the data an import
    starts from holds the id given on the command line and no field. *)
Definition ImportStatePassthrough (id : string) : ResourceData :=
  {| Id := id; operator_id := ""; profile_id := ""; enabled := false; weight := 0;
     depends := []; description := ""; parameter_schema := "";
     reply := []; control := [] |}.

(** What the [ValidateFunc]s of [radiusAttribute] ask of a block. *)
Definition attribute_in_bounds (a : AttributeConfig) : Prop :=
  StringIsNotWhiteSpace (cfg_name a) = true
  /\ (forall o, cfg_op a = Some o -> In o op_choices).

(** What the [ValidateFunc]s of the schema ask of a configuration. *)
Definition in_bounds (c : ProfileConfig) : Prop :=
  StringIsNotWhiteSpace (cfg_operator_id c) = true
  /\ matches_id (cfg_profile_id c) = true
  /\ (forall w, cfg_weight c = Some w -> (1 <= w <= 100000)%Z)
  /\ Forall (fun v => matches_id v = true) (cfg_depends c)
  /\ (forall s, cfg_description c = Some s -> matches_description s = true)
  /\ (forall s, cfg_parameter_schema c = Some s -> StringIsJSON s = true)
  /\ Forall attribute_in_bounds (cfg_reply c)
  /\ Forall attribute_in_bounds (cfg_control c).

(** No key of the object [ms] names the field tagged [tag]. *)
Definition lacks (tag : string) (ms : list (string * Json.JSON)) : Prop :=
  forall k v, In (k, v) ms -> Fmt.to_lower k <> tag.

(** An endpoint that knows the profile under the id [xyz]. *)
Definition renaming : APIClient :=
  Sample.replying
    (200%Z, Sample.json "{'id':'xyz','state':'enabled','weight':50,'radius':{}}", None).

(** An endpoint that reports the profile as suspended and with a
    parameter schema. *)
Definition suspended : APIClient :=
  Sample.replying
    (200%Z,
     Sample.json
       "{'id':'abc','state':'suspended','weight':50,'parameter_schema':{'type':'object'}}",
     None).

(** A configuration with a [depends] entry and a [control] block that the
    schema refuses. *)
Definition refused : ProfileConfig :=
  {| cfg_operator_id := "op1"; cfg_profile_id := "abc"; cfg_enabled := None;
     cfg_weight := None; cfg_depends := ["base_profile"; "Bad-Id"]; cfg_description := None;
     cfg_parameter_schema := None; cfg_reply := [];
     cfg_control := [{| cfg_name := " "; cfg_value := []; cfg_op := Some "==";
                        cfg_expand := None; cfg_do_xlat := None; cfg_is_json := None |}] |}.

(** A configuration that names only what the schema requires. *)
Definition minimal : ProfileConfig :=
  {| cfg_operator_id := "op1"; cfg_profile_id := "abc"; cfg_enabled := None;
     cfg_weight := None; cfg_depends := []; cfg_description := None;
     cfg_parameter_schema := None; cfg_reply := []; cfg_control := [] |}.

End Lifecycle.

(** * Properties *)

(** ** Keys: [Sprintf] and the SDK's addresses *)

Section Keys.

Import Fmt.

Lemma split_free (sep : ascii) (s : string) :
  free_of sep s = true -> split sep s = [s].
Proof.
  induction s as [|c r IH]; simpl; intros H.
  - reflexivity.
  - apply andb_prop in H. destruct H as [Hc Hr].
    apply negb_true_iff in Hc. rewrite Hc, (IH Hr). reflexivity.
Qed.

Lemma split_join (sep : ascii) (a b : string) :
  free_of sep a = true -> split sep (a ++ String sep b) = a :: split sep b.
Proof.
  induction a as [|c r IH]; simpl; intros H.
  - rewrite Ascii.eqb_refl. reflexivity.
  - apply andb_prop in H. destruct H as [Hc Hr].
    apply negb_true_iff in Hc. rewrite Hc, (IH Hr). reflexivity.
Qed.

Lemma append_assoc (a b c : string) : (a ++ b) ++ c = a ++ (b ++ c).
Proof.
  induction a as [|x r IH]; simpl; [reflexivity | now rewrite IH].
Qed.

Lemma digits_free (c : ascii) (d : Decimal.uint) :
  is_digit c = false -> free_of c (NilEmpty.string_of_uint d) = true.
Proof.
  intros Hc.
  assert (Hne : forall x, is_digit x = true -> Ascii.eqb x c = false).
  { intros x Hx. apply Ascii.eqb_neq. intros ->. congruence. }
  induction d; cbn [NilEmpty.string_of_uint free_of]; [reflexivity| ..];
    rewrite IHd, Hne by reflexivity; reflexivity.
Qed.

Lemma itoa_free (c : ascii) (n : nat) : is_digit c = false -> free_of c (itoa n) = true.
Proof. intros H. apply digits_free, H. Qed.

Lemma to_uint_nonnil (n : nat) : Nat.to_uint n <> Decimal.Nil.
Proof.
  intros H.
  pose proof (DecimalNat.Unsigned.to_of (Nat.to_uint n)) as E.
  rewrite DecimalNat.Unsigned.of_to, H in E.
  revert E. apply not_eq_sym, DecimalFacts.unorm_nonnil.
Qed.

Lemma atoi_itoa (n : nat) : atoi (itoa n) = Some n.
Proof.
  unfold atoi, itoa.
  destruct (NilEmpty.string_of_uint (Nat.to_uint n)) eqn:E.
  - exfalso. apply (to_uint_nonnil n).
    destruct (Nat.to_uint n); simpl in E; try discriminate. reflexivity.
  - rewrite <- E, NilEmpty.usu. simpl. now rewrite DecimalNat.Unsigned.of_to.
Qed.

(** The key [v.i.] followed by [f] names the path [v; i] and then [f]'s. *)
Lemma split_prefix (v f : string) (i : nat) :
  free_of "." v = true ->
  split "." ((v ++ "." ++ itoa i ++ ".") ++ f) = v :: itoa i :: split "." f.
Proof.
  intros Hv.
  replace ((v ++ "." ++ itoa i ++ ".") ++ f)
    with (v ++ String "." (itoa i ++ String "." f)).
  - rewrite (split_join _ _ _ Hv), split_join; [reflexivity|].
    now apply itoa_free.
  - rewrite !append_assoc. reflexivity.
Qed.

Lemma split_index (v : string) (i : nat) :
  free_of "." v = true -> split "." (v ++ String "." (itoa i)) = [v; itoa i].
Proof.
  intros Hv. rewrite (split_join _ _ _ Hv), split_free; [reflexivity|].
  now apply itoa_free.
Qed.

End Keys.

(** ** The Go monad and lists *)

Lemma mapM_total {A B : Type} (f : A -> Go B) (g : A -> B) (l : list A) :
  (forall a, In a l -> f a = Some (g a)) -> mapM f l = Some (map g l).
Proof.
  induction l as [|a r IH]; intros H; simpl.
  - reflexivity.
  - rewrite (H a (or_introl eq_refl)), IH; [reflexivity|].
    intros b Hb. apply H. now right.
Qed.

Lemma map_nth_indices {A B : Type} (f : A -> B) (z : A) (l : list A) :
  map (fun i => f (nth i l z)) (seq 0 (List.length l)) = map f l.
Proof.
  induction l as [|a r IH]; simpl.
  - reflexivity.
  - f_equal. rewrite <- seq_shift, map_map. exact IH.
Qed.

Lemma make_length (n : nat) : Sdk.make (Z.of_nat n) = Some (seq 0 n).
Proof.
  unfold Sdk.make.
  destruct (Z.ltb_spec (Z.of_nat n) 0) as [H|_]; [lia|].
  now rewrite Nat2Z.id.
Qed.

(** ** Reading the resource's data by key *)

Section Reading.

Import Fmt Sdk Profile.

Variable d : ResourceData.

Lemma strings_at_index (l : list string) (i : nat) :
  strings_at l [itoa i] = VString (nth i l "").
Proof. unfold strings_at. now rewrite atoi_itoa. Qed.

Lemma strings_at_count (l : list string) :
  strings_at l ["#"] = VInt (Z.of_nat (List.length l)).
Proof. reflexivity. Qed.

Lemma attributes_at_index (l : list Attribute) (i : nat) (rest : list string) :
  attributes_at l (itoa i :: rest) = attribute_at (nth i l zero_attribute) rest.
Proof. unfold attributes_at. now rewrite atoi_itoa. Qed.

Lemma reply_key : block_key d "reply" (reply d).
Proof. intros key rest H. unfold Get. rewrite H. reflexivity. Qed.

Lemma control_key : block_key d "control" (control d).
Proof. intros key rest H. unfold Get. rewrite H. reflexivity. Qed.

Lemma Get_depends_index (i : nat) :
  Get d ("depends." ++ itoa i) = VString (nth i (depends d) "").
Proof.
  change ("depends." ++ itoa i) with ("depends" ++ String "." (itoa i)).
  unfold Get. rewrite split_index by reflexivity.
  change (strings_at (depends d) [itoa i] = VString (nth i (depends d) "")).
  apply strings_at_index.
Qed.

(** Every field of block [i] under [v], read by the keys the loop builds. *)
Lemma Get_block_field (v : string) (l : list Attribute) (i : nat) (f : string) :
  free_of "." v = true -> block_key d v l ->
  Get d ((v ++ "." ++ itoa i ++ ".") ++ f)
  = attribute_at (nth i l zero_attribute) (split "." f).
Proof.
  intros Hv Hk.
  rewrite (Hk _ (itoa i :: split "." f)) by now apply split_prefix.
  apply attributes_at_index.
Qed.

Lemma Get_block_value (v : string) (l : list Attribute) (i j : nat) :
  free_of "." v = true -> block_key d v l ->
  Get d ((v ++ "." ++ itoa i ++ ".") ++ "value." ++ itoa j)
  = VString (nth j (value (nth i l zero_attribute)) "").
Proof.
  intros Hv Hk. rewrite (Get_block_field v l i _ Hv Hk).
  change ("value." ++ itoa j) with ("value" ++ String "." (itoa j)).
  rewrite split_index by reflexivity.
  change (strings_at (value (nth i l zero_attribute)) [itoa j]
          = VString (nth j (value (nth i l zero_attribute)) "")).
  apply strings_at_index.
Qed.

Lemma Get_block_count (v : string) (l : list Attribute) :
  free_of "." v = true -> block_key d v l ->
  Get d (v ++ ".#") = VInt (Z.of_nat (List.length l)).
Proof.
  intros Hv Hk. rewrite (Hk _ ["#"]); [reflexivity|].
  change (v ++ ".#") with (v ++ String "." "#").
  now rewrite split_join.
Qed.

(** The loop over one of [reply] and [control] never panics and copies
    the blocks in order. *)
Lemma buildAttributes_spec (v : string) (l : list Attribute) :
  free_of "." v = true -> block_key d v l ->
  buildAttributes d v = Some (map attribute_struct l).
Proof.
  intros Hv Hk. unfold buildAttributes.
  rewrite (Get_block_count v l Hv Hk). cbn [as_int bind ret].
  rewrite make_length. cbn [bind].
  rewrite <- (map_nth_indices attribute_struct zero_attribute l).
  apply mapM_total. intros i _.
  rewrite !(Get_block_field v l i _ Hv Hk).
  cbn [split Ascii.eqb Bool.eqb attribute_at String.eqb scalar_at
       as_string as_bool bind ret].
  rewrite strings_at_count. cbn [as_int bind ret].
  rewrite make_length. cbn [bind].
  rewrite (mapM_total _ (fun j => nth j (value (nth i l zero_attribute)) "")).
  - cbn [bind ret]. unfold attribute_struct.
    rewrite (map_nth_indices (fun s => s)), map_id. reflexivity.
  - intros j _. now rewrite (Get_block_value v l i j Hv Hk).
Qed.

End Reading.

(** ** [buildProfileObject] *)

Section Building.

Import Fmt Sdk Profile.

(** [buildProfileObject] never panics and never fails: it sets the id to
    [operator_id/profile_id] and returns the structure of the data. *)
Lemma buildProfileObject_spec (d : ResourceData) (api : APIClient) :
  buildProfileObject d api
  = Some (SetId d (operator_id d ++ "/" ++ profile_id d), profile_struct d, None).
Proof.
  unfold buildProfileObject.
  change (Get d "profile_id") with (VString (profile_id d)).
  change (Get d "weight") with (VInt (weight d)).
  change (Get d "description") with (VString (description d)).
  change (Get d "enabled") with (VBool (enabled d)).
  change (Get d "operator_id") with (VString (operator_id d)).
  cbn [as_string as_int as_bool bind ret].
  set (d1 := SetId d (operator_id d ++ "/" ++ profile_id d)).
  change (Get d1 "depends.#") with (VInt (Z.of_nat (List.length (depends d)))).
  cbn [as_int bind ret]. rewrite make_length. cbn [bind].
  rewrite (mapM_total _ (fun i => nth i (depends d) "")).
  - cbn [bind]. rewrite (map_nth_indices (fun s => s)), map_id.
    rewrite (buildAttributes_spec d1 "reply" (reply d) eq_refl (reply_key d1)).
    rewrite (buildAttributes_spec d1 "control" (control d) eq_refl (control_key d1)).
    reflexivity.
  - intros i _. now rewrite (Get_depends_index d1).
Qed.

End Building.

(** ** [getProfile] and [resourceProfileRead] *)

Section ReadingBack.

Import Json Sdk Profile.

Lemma strings_of_value_strings (l : list string) :
  strings_of_value (VList (map VString l)) = Some l.
Proof.
  unfold strings_of_value.
  rewrite (mapM_total _ (fun v => match v with VString s => s | _ => "" end)).
  - rewrite map_map. now rewrite map_id.
  - intros v Hv. apply in_map_iff in Hv. destruct Hv as [s [<- _]]. reflexivity.
Qed.

Lemma attribute_of_map (c : RadiusAttribute) :
  attribute_of_value (attribute_map c) = Some (attribute_read c).
Proof.
  unfold attribute_map, attribute_of_value.
  cbn [map_set String.eqb Ascii.eqb Bool.eqb].
  unfold member_string, member_strings, member_bool.
  cbn [map_lookup String.eqb Ascii.eqb Bool.eqb string_of_value bind ret].
  rewrite strings_of_value_strings. reflexivity.
Qed.

Lemma attributes_of_maps (l : list RadiusAttribute) :
  attributes_of_value (VList (map attribute_map l)) = Some (map attribute_read l).
Proof.
  unfold attributes_of_value.
  rewrite (mapM_total _ (fun v => default zero_attribute (attribute_of_value v))).
  - rewrite map_map. f_equal. apply map_ext. intros c.
    now rewrite attribute_of_map.
  - intros v Hv. apply in_map_iff in Hv. destruct Hv as [c [<- _]].
    now rewrite attribute_of_map.
Qed.

(** The seven [d.Set] calls of a read, one after the other. *)
Lemma Set_all (d : ResourceData) (obj : RadiusProfile) :
  Set_ (Set_ (Set_ (Set_ (Set_ (Set_ (Set_ d
    "profile_id" (VString (ID obj)))
    "enabled" (VBool (String.eqb (State obj) "enabled")))
    "weight" (VInt (Weight obj)))
    "description" (VString (Description obj)))
    "depends" (VList (map VString (Depends obj))))
    "reply" (VList (map attribute_map (Reply (Radius obj)))))
    "control" (VList (map attribute_map (Control (Radius obj))))
  = data_read d obj.
Proof.
  change (Set_ d "profile_id" (VString (ID obj))) with (with_profile_id d (ID obj)).
  set (d1 := with_profile_id d (ID obj)).
  change (Set_ d1 "enabled" (VBool (String.eqb (State obj) "enabled")))
    with (with_enabled d1 (String.eqb (State obj) "enabled")).
  set (d2 := with_enabled d1 _).
  change (Set_ d2 "weight" (VInt (Weight obj))) with (with_weight d2 (Weight obj)).
  set (d3 := with_weight d2 _).
  change (Set_ d3 "description" (VString (Description obj)))
    with (with_description d3 (Description obj)).
  set (d4 := with_description d3 _).
  change (Set_ d4 "depends" (VList (map VString (Depends obj))))
    with (store d4 (strings_of_value (VList (map VString (Depends obj)))) with_depends).
  rewrite strings_of_value_strings. cbn [store].
  set (d5 := with_depends d4 _).
  change (Set_ d5 "reply" (VList (map attribute_map (Reply (Radius obj)))))
    with (store d5 (attributes_of_value (VList (map attribute_map (Reply (Radius obj)))))
            with_reply).
  rewrite attributes_of_maps. cbn [store].
  set (d6 := with_reply d5 _).
  change (Set_ d6 "control" (VList (map attribute_map (Control (Radius obj)))))
    with (store d6 (attributes_of_value (VList (map attribute_map (Control (Radius obj)))))
            with_control).
  rewrite attributes_of_maps. cbn [store].
  reflexivity.
Qed.

(** What [getProfile] returns, by the endpoint's answer. *)
Lemma getProfile_spec (api : APIClient) (operator_id id : string) :
  let r := {| req_method := "GET";
              req_path := "/operator/" ++ operator_id ++ "/profile/" ++ id;
              req_data := "" |} in
  getProfile api operator_id id
  = match answer api r with
    | (_, _, Some e) => (logged api r, None, Some e)
    | (status, data, None) =>
        if (status =? 404)%Z then (logged api r, None, None)
        else match json_Unmarshal data with
             | inl e => (logged api r, None, Some e)
             | inr res => (logged api r, Some res, None)
             end
    end.
Proof.
  intros r. unfold getProfile, sendRequest. fold r.
  destruct (answer api r) as [[status data] [e|]]; reflexivity.
Qed.

(** What [resourceProfileRead] returns, by the endpoint's answer: it never
    panics and sends exactly the request [read_request d]. *)
Lemma resourceProfileRead_spec (d : ResourceData) (api : APIClient) :
  resourceProfileRead d api
  = Some match answer api (read_request d) with
         | (_, _, Some e) => (d, logged api (read_request d), Some e)
         | (status, data, None) =>
             if (status =? 404)%Z then (SetId d "", logged api (read_request d), None)
             else match json_Unmarshal data with
                  | inl e => (d, logged api (read_request d), Some e)
                  | inr obj => (data_read d obj, logged api (read_request d), None)
                  end
         end.
Proof.
  unfold resourceProfileRead.
  change (Get d "operator_id") with (VString (operator_id d)).
  change (Get d "profile_id") with (VString (profile_id d)).
  cbn [as_string bind ret].
  rewrite getProfile_spec. fold (read_request d).
  destruct (answer api (read_request d)) as [[status data] [e|]]; [reflexivity|].
  destruct (status =? 404)%Z; [reflexivity|].
  destruct (json_Unmarshal data) as [e|obj]; [reflexivity|].
  now rewrite Set_all.
Qed.

(** A read returns, and whatever it returns it has sent one request. *)
Lemma resourceProfileRead_sends (d : ResourceData) (api : APIClient) :
  exists d' err, resourceProfileRead d api = Some (d', logged api (read_request d), err).
Proof.
  rewrite resourceProfileRead_spec.
  destruct (answer api (read_request d)) as [[status data] [e|]].
  - now exists d, (Some e).
  - destruct (status =? 404)%Z.
    + now exists (SetId d ""), None.
    + destruct (json_Unmarshal data) as [e|obj].
      * now exists d, (Some e).
      * now exists (data_read d obj), None.
Qed.

End ReadingBack.

(** ** The JSON structures: what is written is read back *)

Section Codec.

Import Json Sdk Profile.

Lemma try_all_total {A B : Type} (f : A -> error + B) (g : A -> B) (l : list A) :
  (forall a, In a l -> f a = inr (g a)) -> try_all f l = inr (map g l).
Proof.
  induction l as [|a r IH]; intros H; simpl.
  - reflexivity.
  - rewrite (H a (or_introl eq_refl)), IH; [reflexivity|].
    intros b Hb. apply H. now right.
Qed.

Lemma int_range_spec (z : Z) : int_range z -> in_int_range z = true.
Proof.
  unfold int_range, in_int_range. intros [Hlo Hhi].
  apply andb_true_intro. split; [now apply Z.leb_le | now apply Z.ltb_lt].
Qed.

(** A Go [int] is read back from the literal written for it. *)
Lemma int_of_literal_of_int (z : Z) :
  int_range z -> int_of_literal (literal_of_int z) = Some z.
Proof.
  intros Hz. unfold int_of_literal, literal_of_int.
  rewrite NilZero.isi.
  - rewrite DecimalZ.of_to, (int_range_spec z Hz). reflexivity.
  - destruct z; simpl; try discriminate.
    intros [= H]. now apply (DecimalPos.Unsigned.to_uint_nonnil p).
  - destruct z; simpl; try discriminate.
    intros [= H]. now apply (DecimalPos.Unsigned.to_uint_nonnil p).
Qed.

Lemma decode_strings (l : list string) :
  decode_slice (fun e => decode_string e "") "[]string" (JArray (map JString l)) = inr l.
Proof.
  unfold decode_slice.
  rewrite (try_all_total _ (fun v => match v with JString s => s | _ => "" end)).
  - rewrite map_map. now rewrite map_id.
  - intros v Hv. apply in_map_iff in Hv. destruct Hv as [s [<- _]]. reflexivity.
Qed.

(** One member read into a structure. *)
Lemma decode_members_step {T : Type} (field : T -> string -> JSON -> error + T)
    (k : string) (v : JSON) (r : list (string * JSON)) (acc acc' : T) :
  field acc (Fmt.to_lower k) v = inr acc' ->
  decode_members field ((k, v) :: r) acc = decode_members field r acc'.
Proof. intros H. cbn [decode_members]. now rewrite H. Qed.

Lemma field_value (a : RadiusAttribute) (vs : list string) :
  field_RadiusAttribute a (Fmt.to_lower "value") (JArray (map JString vs))
  = inr {| Name := Name a; Value_ := vs; OP := OP a; Expand := Expand a;
           DoXlat := DoXlat a; IsJson := IsJson a |}.
Proof.
  change (Fmt.to_lower "value") with "value".
  unfold field_RadiusAttribute. cbn [String.eqb Ascii.eqb Bool.eqb].
  now rewrite decode_strings.
Qed.

(** The members are read one after the other; a member whose value is a
    list is read by the lemma for its list, any other by computation. *)
Ltac read_members lists :=
  repeat (erewrite decode_members_step by (first [lists | reflexivity]));
  cbn [decode_members].

Lemma decode_marshal_RadiusAttribute (a : RadiusAttribute) :
  decode_RadiusAttribute (marshal_RadiusAttribute a) zero_RadiusAttribute = inr a.
Proof.
  destruct a as [n vs o e x j].
  unfold decode_RadiusAttribute, marshal_RadiusAttribute, decode_struct, omitempty.
  cbn [Name Value_ OP Expand DoXlat IsJson].
  destruct (String.eqb_spec o "") as [-> | _]; cbn [app];
    read_members ltac:(apply field_value); reflexivity.
Qed.

Lemma decode_marshal_RadiusAttributes (l : list RadiusAttribute) :
  decode_RadiusAttributes (JArray (map marshal_RadiusAttribute l)) = inr l.
Proof.
  unfold decode_RadiusAttributes, decode_slice.
  rewrite (try_all_total _
             (fun v => match decode_RadiusAttribute v zero_RadiusAttribute with
                       | inr a => a
                       | inl _ => zero_RadiusAttribute
                       end)).
  - rewrite map_map. f_equal. rewrite <- (map_id l) at 2. apply map_ext.
    intros a. now rewrite decode_marshal_RadiusAttribute.
  - intros v Hv. apply in_map_iff in Hv. destruct Hv as [a [<- _]].
    now rewrite decode_marshal_RadiusAttribute.
Qed.

Lemma field_reply (r : RadiusProfileAttributes) (l : list RadiusAttribute) :
  field_RadiusProfileAttributes r (Fmt.to_lower "reply")
    (JArray (map marshal_RadiusAttribute l))
  = inr {| Reply := l; Control := Control r |}.
Proof.
  change (Fmt.to_lower "reply") with "reply".
  unfold field_RadiusProfileAttributes. cbn [String.eqb Ascii.eqb Bool.eqb].
  now rewrite decode_marshal_RadiusAttributes.
Qed.

Lemma field_control (r : RadiusProfileAttributes) (l : list RadiusAttribute) :
  field_RadiusProfileAttributes r (Fmt.to_lower "control")
    (JArray (map marshal_RadiusAttribute l))
  = inr {| Reply := Reply r; Control := l |}.
Proof.
  change (Fmt.to_lower "control") with "control".
  unfold field_RadiusProfileAttributes. cbn [String.eqb Ascii.eqb Bool.eqb].
  now rewrite decode_marshal_RadiusAttributes.
Qed.

Lemma decode_marshal_RadiusProfileAttributes (r : RadiusProfileAttributes) :
  decode_struct field_RadiusProfileAttributes "RadiusProfileAttributes"
    (marshal_RadiusProfileAttributes r) zero_RadiusProfileAttributes = inr r.
Proof.
  destruct r as [rep con].
  unfold marshal_RadiusProfileAttributes, decode_struct, omitempty.
  cbn [Reply Control].
  destruct rep as [|a rep], con as [|b con]; cbn [is_nil app];
    read_members ltac:(first [apply field_reply | apply field_control]);
    reflexivity.
Qed.

Lemma field_depends (p : RadiusProfile) (l : list string) :
  field_RadiusProfile p (Fmt.to_lower "depends") (JArray (map JString l))
  = inr {| ID := ID p; State := State p; Weight := Weight p; Depends := l;
           Description := Description p; Radius := Radius p; Schema := Schema p |}.
Proof.
  change (Fmt.to_lower "depends") with "depends".
  unfold field_RadiusProfile. cbn [String.eqb Ascii.eqb Bool.eqb].
  now rewrite decode_strings.
Qed.

Lemma field_weight (p : RadiusProfile) (w : Z) :
  int_range w ->
  field_RadiusProfile p (Fmt.to_lower "weight") (JNumber (literal_of_int w))
  = inr {| ID := ID p; State := State p; Weight := w; Depends := Depends p;
           Description := Description p; Radius := Radius p; Schema := Schema p |}.
Proof.
  intros Hw. change (Fmt.to_lower "weight") with "weight".
  unfold field_RadiusProfile. cbn [String.eqb Ascii.eqb Bool.eqb decode_int].
  now rewrite (int_of_literal_of_int w Hw).
Qed.

Lemma field_radius (p : RadiusProfile) (r : RadiusProfileAttributes) :
  Radius p = zero_RadiusProfileAttributes ->
  field_RadiusProfile p (Fmt.to_lower "radius") (marshal_RadiusProfileAttributes r)
  = inr {| ID := ID p; State := State p; Weight := Weight p; Depends := Depends p;
           Description := Description p; Radius := r; Schema := Schema p |}.
Proof.
  intros Hz. change (Fmt.to_lower "radius") with "radius".
  unfold field_RadiusProfile. cbn [String.eqb Ascii.eqb Bool.eqb].
  now rewrite Hz, decode_marshal_RadiusProfileAttributes.
Qed.

(** A profile structure without a [parameter_schema] is read back from the
    document written for it. *)
Lemma decode_marshal_RadiusProfile (p : RadiusProfile) :
  Schema p = None -> int_range (Weight p) ->
  decode_struct field_RadiusProfile "RadiusProfile" (marshal_RadiusProfile p)
    zero_RadiusProfile = inr p.
Proof.
  destruct p as [i st w dep desc rad sch]. cbn [Schema Weight]. intros -> Hw.
  unfold marshal_RadiusProfile, decode_struct, omitempty.
  cbn [ID State Weight Depends Description Radius Schema].
  destruct dep as [|x dep]; destruct (String.eqb_spec desc "") as [-> | _];
    cbn [is_nil app];
    read_members ltac:(first [ apply field_depends
                             | apply (field_weight _ w Hw)
                             | apply field_radius; reflexivity ]);
    reflexivity.
Qed.

End Codec.

(** ** Create *)

Section Creating.

Import Json Sdk Profile.

(** [resourceProfileCreate] builds the structure, sets the id, and then
    only reads: whatever the data, one GET is all it sends. *)
Lemma resourceProfileCreate_spec (d : ResourceData) (api : APIClient) :
  resourceProfileCreate d api = resourceProfileRead (tracked d) api.
Proof.
  unfold resourceProfileCreate. rewrite buildProfileObject_spec. reflexivity.
Qed.

Lemma attribute_read_struct (a : Attribute) : attribute_read (attribute_struct a) = a.
Proof. now destruct a. Qed.

Lemma state_enabled (b : bool) :
  String.eqb (if b then "enabled" else "disabled") "enabled" = b.
Proof. now destruct b. Qed.

(** Reading back the structure built from the data changes nothing. *)
Lemma data_read_struct (d : ResourceData) (v : string) :
  data_read (SetId d v) (profile_struct d) = SetId d v.
Proof.
  destruct d. unfold data_read, profile_struct, SetId. cbn.
  rewrite state_enabled, !map_map.
  rewrite !(map_ext _ (fun a => a) attribute_read_struct), !map_id.
  reflexivity.
Qed.

End Creating.

(** ** Validation *)

Section Validating.

Import Sdk Profile.

Lemma not_in_slice (valid : list string) (v : string) :
  ~ In v valid -> StringInSlice valid false v = false.
Proof.
  unfold StringInSlice. induction valid as [|s r IH]; intros H; simpl.
  - reflexivity.
  - rewrite IH by (intros Hr; apply H; now right).
    destruct (String.eqb_spec v s) as [-> | _]; [|reflexivity].
    exfalso. apply H. now left.
Qed.

Lemma not_between (lo hi v : Z) : ~ (lo <= v <= hi)%Z -> IntBetween lo hi v = false.
Proof.
  intros H. unfold IntBetween.
  destruct (Z.leb_spec lo v), (Z.leb_spec v hi); try reflexivity. lia.
Qed.

(** A list of blocks with one that a validator refuses is refused. *)
Lemma check_each_refuses {A : Type} (f : string -> A -> list string) (key : string)
    (l : list A) (a : A) :
  In a l -> (forall k, f k a <> []) -> forall i, check_each f key i l <> [].
Proof.
  intros Hin Hf. induction l as [|b r IH]; [destruct Hin|].
  intros i. cbn [check_each]. intros E. apply app_eq_nil in E. destruct E as [E1 E2].
  destruct Hin as [-> | Hin]; [now apply (Hf _ E1) | now apply (IH Hin (S i))].
Qed.

Lemma validate_radiusAttribute_op (key : string) (a : AttributeConfig) (o : string) :
  cfg_op a = Some o -> ~ In o op_choices -> validate_radiusAttribute key a <> [].
Proof.
  intros Ho Hn. unfold validate_radiusAttribute. rewrite Ho.
  cbn [check_opt]. rewrite (not_in_slice _ _ Hn). cbn [check].
  intros E. apply app_eq_nil in E. destruct E as [_ E]. discriminate.
Qed.

(** Every configuration out of bounds has a key that validation refuses. *)
Lemma validate_out_of_bounds (c : ProfileConfig) :
  out_of_bounds c -> validate_resourceProfile c <> [].
Proof.
  unfold validate_resourceProfile.
  intros [Hid | [[w [Hw Hr]] | [a [o [Hin [Ho Hn]]]]]] E;
    repeat (apply app_eq_nil in E; let E1 := fresh "E" in destruct E as [E1 E]).
  - rewrite Hid in E1. discriminate.
  - rewrite Hw in E2. cbn [check_opt] in E2.
    rewrite (not_between _ _ _ Hr) in E2. discriminate.
  - destruct Hin as [Hin | Hin].
    + revert E6. apply (check_each_refuses _ _ _ a Hin).
      intros k. now apply (validate_radiusAttribute_op k a o).
    + revert E. apply (check_each_refuses _ _ _ a Hin).
      intros k. now apply (validate_radiusAttribute_op k a o).
Qed.

End Validating.

(** ** The claims *)

Section Claims.

Import Json Sdk Profile.

(** C1 (as amended).  When [sendRequest] reports no error: a 404 is the
    absent sentinel, [getProfile] returns neither an object nor an error
    and [resourceProfileRead] clears the id and succeeds, leaving every
    other field as it was; for any other status the status is not looked
    at: the read fails exactly when the body does not unmarshal, with the
    decoder's error, and otherwise succeeds with the decoded fields. *)
Theorem read_absent_or_decoded (d : ResourceData) (api : APIClient) (status : Z)
    (data : string) :
  answer api (read_request d) = (status, data, None) ->
  (status = 404%Z ->
     getProfile api (operator_id d) (profile_id d) = (logged api (read_request d), None, None)
     /\ resourceProfileRead d api = Some (SetId d "", logged api (read_request d), None))
  /\ (status <> 404%Z ->
        resourceProfileRead d api
        = Some match json_Unmarshal data with
               | inl e => (d, logged api (read_request d), Some e)
               | inr obj => (data_read d obj, logged api (read_request d), None)
               end).
Proof.
  intros Hans. split.
  - intros ->. split.
    + rewrite getProfile_spec. fold (read_request d). now rewrite Hans.
    + rewrite resourceProfileRead_spec, Hans. reflexivity.
  - intros Hne. rewrite resourceProfileRead_spec, Hans.
    apply Z.eqb_neq in Hne. rewrite Hne.
    now destruct (json_Unmarshal data).
Qed.

(** C1, witness: a 404 clears the id of the sample profile. *)
Lemma read_absent_or_decoded_witness :
  resourceProfileRead (tracked Sample.abc) (Sample.replying (404%Z, "", None))
  = Some (SetId (tracked Sample.abc) "",
          logged (Sample.replying (404%Z, "", None)) (read_request Sample.abc), None).
Proof.
  apply (read_absent_or_decoded (tracked Sample.abc) (Sample.replying (404%Z, "", None))
           404%Z "" eq_refl).
  reflexivity.
Defined.

(** C1, counterexample: the endpoint answers 500 (neither 404 nor 2xx)
    with the body [{}] and no transport error; the read succeeds, with no
    error at all, and overwrites the fields with the empty profile's. *)
Lemma read_500_succeeds :
  answer (Sample.replying (500%Z, "{}", None)) (read_request Sample.abc)
  = (500%Z, "{}", None)
  /\ 500%Z <> 404%Z /\ ((500 <? 200) || (300 <=? 500))%Z = true
  /\ resourceProfileRead Sample.abc (Sample.replying (500%Z, "{}", None))
     = Some (data_read Sample.abc zero_RadiusProfile,
             logged (Sample.replying (500%Z, "{}", None)) (read_request Sample.abc), None).
Proof.
  split; [reflexivity|]. split; [discriminate|]. split; [reflexivity|].
  rewrite resourceProfileRead_spec. reflexivity.
Qed.

(** C9.  If [sendRequest] reports an error, or the body of a non-404
    response does not unmarshal, [getProfile] returns that very error and
    [resourceProfileRead] returns it with the resource's data, id and
    fields, exactly as they were. *)
Theorem read_error_keeps_state (d : ResourceData) (api : APIClient) (status : Z)
    (data : string) (e : error) :
  answer api (read_request d) = (status, data, Some e)
  \/ (answer api (read_request d) = (status, data, None)
      /\ status <> 404%Z /\ json_Unmarshal data = inl e) ->
  getProfile api (operator_id d) (profile_id d) = (logged api (read_request d), None, Some e)
  /\ resourceProfileRead d api = Some (d, logged api (read_request d), Some e).
Proof.
  intros [Hans | [Hans [Hne Hbad]]].
  - split.
    + rewrite getProfile_spec. fold (read_request d). now rewrite Hans.
    + now rewrite resourceProfileRead_spec, Hans.
  - apply Z.eqb_neq in Hne. split.
    + rewrite getProfile_spec. fold (read_request d). now rewrite Hans, Hne, Hbad.
    + now rewrite resourceProfileRead_spec, Hans, Hne, Hbad.
Qed.

(** C9, witness: a 200 whose body is not JSON. *)
Lemma read_error_keeps_state_witness :
  getProfile (Sample.replying (200%Z, "gateway down", None)) "op1" "abc"
  = (logged (Sample.replying (200%Z, "gateway down", None)) (read_request Sample.abc),
     None, Some SyntaxError)
  /\ resourceProfileRead Sample.abc (Sample.replying (200%Z, "gateway down", None))
     = Some (Sample.abc,
             logged (Sample.replying (200%Z, "gateway down", None)) (read_request Sample.abc),
             Some SyntaxError).
Proof.
  apply (read_error_keeps_state Sample.abc (Sample.replying (200%Z, "gateway down", None))
           200%Z "gateway down" SyntaxError).
  right. split; [reflexivity|]. split; [discriminate | reflexivity].
Defined.

(** C10.  [buildProfileObject] writes [enabled] as the state ["enabled"]
    and the opposite as ["disabled"]; a read that fetched a profile sets
    [enabled] exactly when its state is the string ["enabled"], so any
    other state, ["unknown"] for one, is read as not enabled. *)
Theorem enabled_state_asymmetry (d : ResourceData) (api : APIClient) :
  (exists d1 p, buildProfileObject d api = Some (d1, p, None)
                /\ State p = if enabled d then "enabled" else "disabled")
  /\ (forall status data obj,
        answer api (read_request d) = (status, data, None) -> status <> 404%Z ->
        json_Unmarshal data = inr obj ->
        exists d', resourceProfileRead d api = Some (d', logged api (read_request d), None)
                   /\ enabled d' = String.eqb (State obj) "enabled"
                   /\ (State obj = "unknown" -> enabled d' = false)).
Proof.
  split.
  - exists (tracked d), (profile_struct d). split; [apply buildProfileObject_spec | reflexivity].
  - intros status data obj Hans Hne Hobj. exists (data_read d obj).
    apply Z.eqb_neq in Hne.
    rewrite resourceProfileRead_spec, Hans, Hne, Hobj.
    repeat split. cbn [data_read enabled]. now intros ->.
Qed.

(** C10, witness: the sample profile is enabled; the endpoint reports the
    state ["unknown"], and it is read as not enabled. *)
Lemma enabled_state_asymmetry_witness :
  exists d',
    resourceProfileRead Sample.abc
      (Sample.replying (200%Z, Sample.json "{'id':'abc','state':'unknown','weight':50}", None))
    = Some (d', logged (Sample.replying
                          (200%Z, Sample.json "{'id':'abc','state':'unknown','weight':50}", None))
                  (read_request Sample.abc), None)
    /\ enabled d' = false.
Proof.
  destruct (proj2 (enabled_state_asymmetry Sample.abc
                     (Sample.replying
                        (200%Z, Sample.json "{'id':'abc','state':'unknown','weight':50}", None)))
              200%Z (Sample.json "{'id':'abc','state':'unknown','weight':50}")
              {| ID := "abc"; State := "unknown"; Weight := 50; Depends := [];
                 Description := ""; Radius := zero_RadiusProfileAttributes; Schema := None |}
              eq_refl ltac:(discriminate) eq_refl) as [d' [H1 [_ H3]]].
  exists d'. split; [exact H1 | exact (H3 eq_refl)].
Defined.

(** C6.  [buildProfileObject] sets the tracked id to
    [operator_id ++ "/" ++ profile_id], while the one request a read sends,
    and so the one request a create sends, is a GET of
    [/operator/{operator_id}/profile/{profile_id}]: the path ends in
    [profile_id] alone. *)
Theorem composite_id_path_profile_id (d : ResourceData) (api : APIClient) :
  (exists d1 p, buildProfileObject d api = Some (d1, p, None)
                /\ Id d1 = operator_id d ++ "/" ++ profile_id d
                /\ ID p = profile_id d)
  /\ (exists d' api' err,
        resourceProfileRead d api = Some (d', api', err)
        /\ sent api'
           = (sent api
              ++ [{| req_method := "GET";
                     req_path := "/operator/" ++ operator_id d ++ "/profile/" ++ profile_id d;
                     req_data := "" |}])%list)
  /\ (exists d' api' err,
        resourceProfileCreate d api = Some (d', api', err)
        /\ sent api'
           = (sent api
              ++ [{| req_method := "GET";
                     req_path := "/operator/" ++ operator_id d ++ "/profile/" ++ profile_id d;
                     req_data := "" |}])%list).
Proof.
  split; [|split].
  - exists (tracked d), (profile_struct d).
    split; [apply buildProfileObject_spec | split; reflexivity].
  - destruct (resourceProfileRead_sends d api) as [d' [err H]].
    now exists d', (logged api (read_request d)), err.
  - destruct (resourceProfileRead_sends (tracked d) api) as [d' [err H]].
    rewrite resourceProfileCreate_spec.
    now exists d', (logged api (read_request d)), err.
Qed.

(** C8.  The update and delete callbacks that the resource registers
    return no error, for any data and any client; the data is returned as
    it was and the client has sent nothing. *)
Theorem update_delete_do_nothing (d : ResourceData) (api : APIClient) :
  Update resourceProfile d api = Some (d, api, None)
  /\ Delete resourceProfile d api = Some (d, api, None)
  /\ forall d' api' err,
       (resourceProfileUpdate d api = Some (d', api', err)
        \/ resourceProfileDelete d api = Some (d', api', err)) ->
       d' = d /\ sent api' = sent api /\ err = None.
Proof.
  split; [reflexivity|]. split; [reflexivity|].
  intros d' api' err [H | H]; unfold resourceProfileUpdate, resourceProfileDelete, ret in H;
    injection H as <- <- <-; repeat split.
Qed.



(** C5.  A configuration whose [profile_id] does not match
    [^[0-9a-z_]{3,32}$], whose [weight] is outside 1..100000, or one of
    whose attributes has an [op] outside the seven operators, ends in a
    [ValidationError] that names at least one key, and the client has sent
    nothing: the resource's callback is not run.  An attribute that gives
    no [op] gets [:=]. *)
Theorem validation_before_network (c : ProfileConfig) (api : APIClient) :
  (out_of_bounds c ->
     exists keys, keys <> [] /\ Validate resourceProfile c = keys
                  /\ apply_create resourceProfile c api = (ValidationError keys, api))
  /\ (forall a, cfg_op a = None -> op (attribute_of_config a) = ":=").
Proof.
  split.
  - intros H. apply validate_out_of_bounds in H.
    unfold apply_create. cbn [Validate resourceProfile].
    destruct (validate_resourceProfile c) as [|k keys] eqn:E; [now destruct H|].
    exists (k :: keys). split; [discriminate | split; reflexivity].
  - intros a Ha. unfold attribute_of_config. cbn [op]. now rewrite Ha.
Qed.

(** C5, witness: the operator [bogus] is refused before any request. *)
Lemma validation_before_network_witness :
  exists keys, keys <> [] /\ Validate resourceProfile Sample.bogus = keys
               /\ apply_create resourceProfile Sample.bogus Sample.fakeserver
                  = (ValidationError keys, Sample.fakeserver).
Proof.
  apply (proj1 (validation_before_network Sample.bogus Sample.fakeserver)).
  right. right.
  exists {| cfg_name := "Reply-Message"; cfg_value := ["hello"]; cfg_op := Some "bogus";
            cfg_expand := None; cfg_do_xlat := None; cfg_is_json := None |}, "bogus".
  split; [left; left; reflexivity|]. split; [reflexivity|].
  unfold op_choices. cbn [In]. intros H.
  repeat (destruct H as [H | H]; [discriminate H|]). exact H.
Defined.

(** C2 does not hold of the registered delete: deleting the sample
    profile returns success and sends nothing, so no request reaches the
    destroy path and no status is looked at. *)
Lemma delete_sends_nothing :
  resourceProfileDelete (tracked Sample.abc) Sample.fakeserver
  = Some (tracked Sample.abc, Sample.fakeserver, None)
  /\ sent Sample.fakeserver = [].
Proof. split; reflexivity. Qed.

(** C3 does not hold of the registered create: creating the sample
    profile on an endpoint that would store a POSTed profile sends one GET
    and no POST; the endpoint has nothing to serve, answers 404, and the
    create ends with the id cleared and no error. *)
Lemma create_sends_no_post :
  resourceProfileCreate Sample.abc Sample.fakeserver
  = Some (SetId Sample.abc "",
          {| endpoint := Sample.storing;
             sent := [{| req_method := "GET"; req_path := "/operator/op1/profile/abc";
                         req_data := "" |}] |},
          None).
Proof.
  rewrite resourceProfileCreate_spec, resourceProfileRead_spec. reflexivity.
Qed.

End Claims.

(** ** The token manager *)

Section Tokens.

Import TokenManager.

Variable endpoint : OAuthConfig -> Z -> GrantResponse.

Lemma request_grant_spec (c : OAuthConfig) (now : Z) (m m' : Manager) (r : TokenResult) :
  request_grant endpoint c now m = (m', r) ->
  grants m' = S (grants m)
  /\ forall t, r = Bearer t ->
       cached m' = Some t
       /\ exists tok expires_in sc,
            grant_body (endpoint c now) = Some (tok, expires_in, sc)
            /\ is_success (grant_status (endpoint c now)) = true
            /\ t = {| bearer := tok; expiry := now + expires_in; scopes := sc |}.
Proof.
  unfold request_grant.
  destruct (grant_body (endpoint c now)) as [[[tok ex] sc]|] eqn:Hb.
  - destruct (is_success (grant_status (endpoint c now))) eqn:Hs;
      intros [= <- <-]; (split; [reflexivity|]); intros t [=].
    subst t. split; [reflexivity|]. now exists tok, ex, sc.
  - intros [= <- <-]. split; [reflexivity|]. intros t [=].
Qed.


End Tokens.


(** * Further properties of the resource *)

(** A read returns; the id it leaves is the one it found or none. *)
Lemma read_leaves_or_clears_id (d : Profile.ResourceData) (api : APIClient) :
  exists d' err,
    Profile.resourceProfileRead d api
    = Some (d', logged api (Profile.read_request d), err)
    /\ (Profile.Id d' = Profile.Id d \/ Profile.Id d' = "").
Proof.
  rewrite resourceProfileRead_spec.
  destruct (answer api (Profile.read_request d)) as [[status data] [e|]].
  - exists d, (Some e). split; [reflexivity | now left].
  - destruct (status =? 404)%Z.
    + exists (Profile.SetId d ""), None. split; [reflexivity | now right].
    + destruct (Profile.json_Unmarshal data) as [e|obj].
      * exists d, (Some e). split; [reflexivity | now left].
      * exists (Profile.data_read d obj), None. split; [reflexivity | now left].
Qed.


Section Build.

Import Json Sdk Profile.

(** X1.  [buildProfileObject] never panics and never returns an error,
    whatever the data: every type assertion holds and every index it asks
    for exists.  The structure it returns has the data's [profile_id],
    [weight], [description] and [depends], the state written for
    [enabled], and the [reply] and [control] blocks in their order, each
    with its values in their order; the data it leaves differs from the
    data given in the id alone. *)
Theorem buildProfileObject_never_panics (d : ResourceData) (api : APIClient) :
  exists d1 p,
    buildProfileObject d api = Some (d1, p, None)
    /\ d1 = SetId d (operator_id d ++ "/" ++ profile_id d)
    /\ ID p = profile_id d /\ Weight p = weight d
    /\ Description p = description d /\ Depends p = depends d
    /\ State p = (if enabled d then "enabled" else "disabled")
    /\ map attribute_read (Reply (Radius p)) = reply d
    /\ map attribute_read (Control (Radius p)) = control d.
Proof.
  exists (tracked d), (profile_struct d).
  split; [apply buildProfileObject_spec|].
  repeat (split; [reflexivity|]).
  cbn [profile_struct Radius Reply Control].
  rewrite !map_map, !(map_ext _ (fun a => a) attribute_read_struct), !map_id.
  split; reflexivity.
Qed.

(** X2.  [parameter_schema] takes no part in what is built: whatever it
    is set to, [buildProfileObject] returns the same structure, its
    [Schema] is nil, and the JSON written for the structure has no
    [parameter_schema] member. *)
Theorem parameter_schema_never_built (d : ResourceData) (api : APIClient) :
  exists p,
    (forall s, exists d1, buildProfileObject (with_parameter_schema d s) api = Some (d1, p, None))
    /\ Schema p = None
    /\ forall ms v, marshal_RadiusProfile p = JObject ms -> ~ In ("parameter_schema", v) ms.
Proof.
  exists (profile_struct d). split; [|split].
  - intros s. exists (tracked (with_parameter_schema d s)).
    now rewrite buildProfileObject_spec.
  - reflexivity.
  - intros ms v [= <-] Hin. unfold omitempty in Hin.
    cbn [profile_struct Schema ID State Weight Depends Description Radius] in Hin.
    destruct (is_nil (depends d)), (String.eqb (description d) "");
      cbn [In app] in Hin;
      repeat match goal with
             | H : _ \/ _ |- _ => destruct H
             | H : (_, _) = (_, _) |- _ => discriminate H
             | H : False |- _ => destruct H
             end.
Qed.

End Build.

Section ReadFrame.

Import Json Sdk Profile Lifecycle.

(** X3.  A read never writes [operator_id] or [parameter_schema], and the
    only thing it ever does to the id is to clear it, which it does only
    when it returns no error. *)
Theorem read_keeps_operator_and_schema (d : ResourceData) (api : APIClient) :
  exists d' err,
    resourceProfileRead d api = Some (d', logged api (read_request d), err)
    /\ operator_id d' = operator_id d
    /\ parameter_schema d' = parameter_schema d
    /\ (Id d' = Id d \/ (Id d' = "" /\ err = None)).
Proof.
  rewrite resourceProfileRead_spec.
  destruct (answer api (read_request d)) as [[status data] [e|]].
  - exists d, (Some e). repeat split. now left.
  - destruct (status =? 404)%Z.
    + exists (SetId d ""), None. repeat split. now right.
    + destruct (json_Unmarshal data) as [e|obj].
      * exists d, (Some e). repeat split. now left.
      * exists (data_read d obj), None. repeat split. now left.
Qed.

(** X4.  A create that fetches a profile takes [profile_id] from the
    response and does not compute the id again: the id stays the one built
    from the [profile_id] given, so when the response carries another id
    the two differ, and the next read asks for the response's id. *)
Theorem create_adopts_response_id (d : ResourceData) (api : APIClient) (status : Z)
    (data : string) (obj : RadiusProfile) :
  answer api (read_request d) = (status, data, None) -> status <> 404%Z ->
  json_Unmarshal data = inr obj ->
  exists d',
    resourceProfileCreate d api = Some (d', logged api (read_request d), None)
    /\ Id d' = operator_id d ++ "/" ++ profile_id d
    /\ profile_id d' = ID obj
    /\ req_path (read_request d') = "/operator/" ++ operator_id d ++ "/profile/" ++ ID obj.
Proof.
  intros Hans Hne Hobj. apply Z.eqb_neq in Hne.
  exists (data_read (tracked d) obj).
  rewrite resourceProfileCreate_spec, resourceProfileRead_spec.
  change (read_request (tracked d)) with (read_request d).
  rewrite Hans, Hne, Hobj. repeat split.
Qed.

(** X4, witness: the profile is created as [abc], the endpoint answers
    with the id [xyz]: the id is [op1/abc], [profile_id] is [xyz]. *)
Lemma create_adopts_response_id_witness :
  exists d',
    resourceProfileCreate Sample.abc renaming
    = Some (d', logged renaming (read_request Sample.abc), None)
    /\ Id d' = "op1/abc" /\ profile_id d' = "xyz"
    /\ req_path (read_request d') = "/operator/op1/profile/xyz".
Proof.
  apply (create_adopts_response_id Sample.abc renaming 200%Z
           (Sample.json "{'id':'xyz','state':'enabled','weight':50,'radius':{}}")
           {| ID := "xyz"; State := "enabled"; Weight := 50; Depends := [];
              Description := ""; Radius := zero_RadiusProfileAttributes; Schema := None |}).
  - reflexivity.
  - discriminate.
  - vm_compute. reflexivity.
Defined.

(** X5.  A create whose read fails, by a transport error or by a body
    that does not unmarshal, returns that error with the id already set to
    [operator_id/profile_id] and every field as given; a create whose read
    is answered 404 returns no error and leaves the id empty. *)
Theorem create_failure_keeps_id (d : ResourceData) (api : APIClient) (status : Z)
    (data : string) :
  (forall e,
      answer api (read_request d) = (status, data, Some e)
      \/ (answer api (read_request d) = (status, data, None)
          /\ status <> 404%Z /\ json_Unmarshal data = inl e) ->
      resourceProfileCreate d api
      = Some (SetId d (operator_id d ++ "/" ++ profile_id d),
              logged api (read_request d), Some e))
  /\ (answer api (read_request d) = (404%Z, data, None) ->
      resourceProfileCreate d api = Some (SetId d "", logged api (read_request d), None)).
Proof.
  split.
  - intros e H.
    rewrite resourceProfileCreate_spec, resourceProfileRead_spec.
    change (read_request (tracked d)) with (read_request d).
    destruct H as [Hans | [Hans [Hne Hbad]]].
    + now rewrite Hans.
    + apply Z.eqb_neq in Hne. now rewrite Hans, Hne, Hbad.
  - intros Hans.
    rewrite resourceProfileCreate_spec, resourceProfileRead_spec.
    change (read_request (tracked d)) with (read_request d).
    now rewrite Hans.
Qed.

(** X5, witness: the transport reports an error; the create returns it
    and the id is [op1/abc]. *)
Lemma create_failure_keeps_id_witness :
  resourceProfileCreate Sample.abc
    (Sample.replying (0%Z, "", Some (SendError "connection refused")))
  = Some (SetId Sample.abc "op1/abc",
          logged (Sample.replying (0%Z, "", Some (SendError "connection refused")))
            (read_request Sample.abc),
          Some (SendError "connection refused")).
Proof.
  apply (proj1 (create_failure_keeps_id Sample.abc
                  (Sample.replying (0%Z, "", Some (SendError "connection refused")))
                  0%Z "")).
  left. reflexivity.
Defined.

(** X6.  The read that follows an import does not look at the imported
    id: whatever the id, it asks for [/operator//profile/], the path of an
    empty [operator_id] and an empty [profile_id]. *)
Theorem import_reads_empty_path (id : string) (api : APIClient) :
  exists d' err,
    Read resourceProfile (ImportStatePassthrough id) api
    = Some (d',
            logged api {| req_method := "GET"; req_path := "/operator//profile/";
                          req_data := "" |},
            err)
    /\ (Id d' = id \/ Id d' = "").
Proof.
  destruct (read_leaves_or_clears_id (ImportStatePassthrough id) api)
    as [d' [err [H Hid]]].
  exists d', err. split; [exact H|].
  destruct Hid as [Hid | Hid]; [now left | now right].
Qed.

End ReadFrame.

Section OnlyReads.

Import Sdk Profile Lifecycle.

(** One callback sends at most one request, a GET without a body, and
    always returns. *)
Lemma call_sends_plain_get (c : Callback) (d : ResourceData) (api : APIClient) :
  exists d' api' err new,
    call resourceProfile c d api = Some (d', api', err)
    /\ sent api' = (sent api ++ new)%list /\ endpoint api' = endpoint api
    /\ Forall plain_get new /\ (List.length new <= 1)%nat.
Proof.
  assert (Hread : forall d0,
             exists d' api' err new,
               resourceProfileRead d0 api = Some (d', api', err)
               /\ sent api' = (sent api ++ new)%list /\ endpoint api' = endpoint api
               /\ Forall plain_get new /\ (List.length new <= 1)%nat).
  { intros d0. destruct (resourceProfileRead_sends d0 api) as [d' [err H]].
    exists d', (logged api (read_request d0)), err, [read_request d0].
    split; [exact H|]. split; [reflexivity|]. split; [reflexivity|].
    split; [|cbn; lia]. constructor; [|constructor]. split; reflexivity. }
  destruct c; cbn [call resourceProfile Create Read Update Delete].
  - rewrite resourceProfileCreate_spec. apply Hread.
  - apply Hread.
  - exists d, api, None, []. rewrite app_nil_r.
    repeat (split; [reflexivity|]). split; [constructor | cbn; lia].
  - exists d, api, None, []. rewrite app_nil_r.
    repeat (split; [reflexivity|]). split; [constructor | cbn; lia].
Qed.

(** X7.  Whatever callbacks of the resource run, in whatever order and on
    whatever data, they all return, and every request the client has sent
    by the end is one it had sent before or a GET without a body: the
    resource never sends a POST, a PUT or a DELETE, and never more
    requests than callbacks were run. *)
Theorem resource_only_reads (cs : list Callback) (d : ResourceData) (api : APIClient) :
  exists d' api' new,
    run resourceProfile cs d api = Some (d', api')
    /\ sent api' = (sent api ++ new)%list
    /\ Forall plain_get new
    /\ (List.length new <= List.length cs)%nat.
Proof.
  revert d api. induction cs as [|c cs IH]; intros d api.
  - exists d, api, []. rewrite app_nil_r.
    split; [reflexivity|]. split; [reflexivity|]. split; [constructor | cbn; lia].
  - destruct (call_sends_plain_get c d api)
      as [d1 [api1 [err [new1 [Hcall [Hsent [_ [Hget Hlen]]]]]]]].
    destruct (IH d1 api1) as [d' [api' [new [Hrun [Hsent' [Hget' Hlen']]]]]].
    exists d', api', (new1 ++ new)%list.
    cbn [run]. rewrite Hcall. cbn [bind].
    split; [exact Hrun|]. split.
    + now rewrite Hsent', Hsent, app_assoc.
    + split; [now apply Forall_app|]. rewrite length_app. cbn [List.length]. lia.
Qed.

End OnlyReads.

Section Addresses.

Import Fmt Sdk Profile.

Lemma free_of_join (c : ascii) (a b : string) : free_of c (a ++ String c b) = false.
Proof.
  induction a as [|x a IH]; cbn [append free_of].
  - now rewrite Ascii.eqb_refl.
  - rewrite IH. apply andb_false_r.
Qed.

(** A string is cut in one way only at its last separator. *)
Lemma join_injective (sep : ascii) (a b p q : string) :
  free_of sep p = true -> free_of sep q = true ->
  a ++ String sep p = b ++ String sep q -> a = b /\ p = q.
Proof.
  intros Hp Hq. revert b. induction a as [|x a IH]; intros [|y b] H; cbn [append] in H.
  - injection H as ->. now split.
  - injection H as <- ->. now rewrite free_of_join in Hp.
  - injection H as -> <-. now rewrite free_of_join in Hq.
  - injection H as -> H. destruct (IH b H) as [-> ->]. now split.
Qed.

Lemma list_of_append (a b : string) :
  list_ascii_of_string (a ++ b) = (list_ascii_of_string a ++ list_ascii_of_string b)%list.
Proof. induction a as [|x a IH]; cbn; [reflexivity | now rewrite IH]. Qed.

Lemma append_inv_tail (a b s : string) : a ++ s = b ++ s -> a = b.
Proof.
  intros H. apply (f_equal list_ascii_of_string) in H.
  rewrite !list_of_append in H. apply app_inv_tail in H.
  apply (f_equal string_of_list_ascii) in H.
  now rewrite !string_of_list_ascii_of_string in H.
Qed.

Lemma append_inv_head (s a b : string) : s ++ a = s ++ b -> a = b.
Proof.
  induction s as [|x s IH]; cbn [append]; intros H; [exact H|].
  injection H as H. now apply IH.
Qed.

(** An identifier the schema accepts has no slash in it. *)
Lemma id_free_of_slash (v : string) : matches_id v = true -> free_of "/" v = true.
Proof.
  unfold matches_id. intros H. apply andb_prop in H. destruct H as [_ H].
  induction v as [|c v IH]; [reflexivity|].
  cbn [all_chars] in H. apply andb_prop in H. destruct H as [Hc Hv].
  cbn [free_of]. rewrite (IH Hv), andb_true_r.
  destruct (Ascii.eqb_spec c "/") as [-> | _]; [discriminate Hc | reflexivity].
Qed.

(** X8.  Two profiles whose [profile_id]s the schema accepts share the
    tracked id, or the path their reads ask for, only if they have the same
    [operator_id] and the same [profile_id]: neither the id nor the path
    can stand for two profiles, although [operator_id] may hold slashes. *)
Theorem id_and_path_name_one_profile (d1 d2 : ResourceData) :
  matches_id (profile_id d1) = true -> matches_id (profile_id d2) = true ->
  Id (tracked d1) = Id (tracked d2)
  \/ req_path (read_request d1) = req_path (read_request d2) ->
  operator_id d1 = operator_id d2 /\ profile_id d1 = profile_id d2.
Proof.
  intros H1 H2. apply id_free_of_slash in H1, H2. intros [H | H].
  - cbn [tracked SetId Id] in H. now apply (join_injective "/" _ _ _ _ H1 H2).
  - assert (Hcut : forall o p, o ++ "/profile/" ++ p = (o ++ "/profile") ++ String "/" p)
      by (intros o p; rewrite append_assoc; reflexivity).
    unfold read_request in H. cbn [req_path] in H.
    apply append_inv_head in H. rewrite !Hcut in H.
    destruct (join_injective "/" _ _ _ _ H1 H2 H) as [Ho Hp].
    split; [now apply (append_inv_tail _ _ "/profile") | exact Hp].
Qed.

(** X8, witness: the sample profile against itself read back. *)
Lemma id_and_path_name_one_profile_witness :
  operator_id Sample.abc = operator_id (with_weight Sample.abc 7)
  /\ profile_id Sample.abc = profile_id (with_weight Sample.abc 7).
Proof.
  apply (id_and_path_name_one_profile Sample.abc (with_weight Sample.abc 7));
    [reflexivity | reflexivity | left; reflexivity].
Defined.

End Addresses.

Section ValidationKeys.

Import Fmt Sdk Profile Lifecycle.

(** The element at index [i] is checked under the key [key.(start + i)]. *)
Lemma check_each_names_index {A : Type} (f : string -> A -> list string) (key k : string)
    (l : list A) (a : A) (i start : nat) :
  nth_error l i = Some a -> In k (f (key ++ "." ++ itoa (start + i)) a) ->
  In k (check_each f key start l).
Proof.
  revert i start. induction l as [|b l IH]; intros [|i] start Hnth Hin;
    try discriminate Hnth; cbn [check_each]; apply in_or_app.
  - injection Hnth as ->. rewrite Nat.add_0_r in Hin. now left.
  - right. apply (IH i (S start) Hnth). now rewrite Nat.add_succ_comm.
Qed.

(** X9.  A validation error names the element at fault by its index: the
    [i]-th entry of [depends] that does not match the identifier pattern
    is reported as [depends.i]; the [i]-th [reply] or [control] block is
    reported as [reply.i.op] (or [control.i.op]) for an [op] outside the
    seven operators and as [reply.i.name] (or [control.i.name]) for a name
    that is empty or white space. *)
Theorem validation_names_index (c : ProfileConfig) (i : nat) :
  (forall v, nth_error (cfg_depends c) i = Some v -> matches_id v = false ->
             In ("depends." ++ itoa i) (validate_resourceProfile c))
  /\ (forall a o, nth_error (cfg_reply c) i = Some a -> cfg_op a = Some o ->
                  ~ In o op_choices ->
                  In (("reply." ++ itoa i) ++ ".op") (validate_resourceProfile c))
  /\ (forall a o, nth_error (cfg_control c) i = Some a -> cfg_op a = Some o ->
                  ~ In o op_choices ->
                  In (("control." ++ itoa i) ++ ".op") (validate_resourceProfile c))
  /\ (forall a, nth_error (cfg_reply c) i = Some a ->
                StringIsNotWhiteSpace (cfg_name a) = false ->
                In (("reply." ++ itoa i) ++ ".name") (validate_resourceProfile c))
  /\ (forall a, nth_error (cfg_control c) i = Some a ->
                StringIsNotWhiteSpace (cfg_name a) = false ->
                In (("control." ++ itoa i) ++ ".name") (validate_resourceProfile c)).
Proof.
  assert (Hop : forall key a o, cfg_op a = Some o -> ~ In o op_choices ->
                  In (key ++ ".op") (validate_radiusAttribute key a)).
  { intros key a o Ho Hn. unfold validate_radiusAttribute. apply in_or_app. right.
    rewrite Ho. cbn [check_opt]. rewrite (not_in_slice _ _ Hn). now left. }
  assert (Hname : forall key a, StringIsNotWhiteSpace (cfg_name a) = false ->
                    In (key ++ ".name") (validate_radiusAttribute key a)).
  { intros key a Hw. unfold validate_radiusAttribute. apply in_or_app. left.
    rewrite Hw. now left. }
  unfold validate_resourceProfile. repeat split.
  - intros v Hnth Hbad. rewrite !in_app_iff. do 3 right. left.
    apply (check_each_names_index _ _ _ _ v i 0 Hnth). cbn [Nat.add].
    rewrite Hbad. now left.
  - intros a o Hnth Ho Hn. rewrite !in_app_iff. do 6 right. left.
    apply (check_each_names_index _ _ _ _ a i 0 Hnth). cbn [Nat.add].
    now apply (Hop _ a o).
  - intros a o Hnth Ho Hn. rewrite !in_app_iff. do 7 right.
    apply (check_each_names_index _ _ _ _ a i 0 Hnth). cbn [Nat.add].
    now apply (Hop _ a o).
  - intros a Hnth Hw. rewrite !in_app_iff. do 6 right. left.
    apply (check_each_names_index _ _ _ _ a i 0 Hnth). cbn [Nat.add].
    now apply Hname.
  - intros a Hnth Hw. rewrite !in_app_iff. do 7 right.
    apply (check_each_names_index _ _ _ _ a i 0 Hnth). cbn [Nat.add].
    now apply Hname.
Qed.

(** X9, witness: the second [depends] entry and the first [control]
    block of the refused configuration are named by their indices. *)
Lemma validation_names_index_witness :
  In "depends.1" (validate_resourceProfile refused)
  /\ In "control.0.op" (validate_resourceProfile refused)
  /\ In "control.0.name" (validate_resourceProfile refused).
Proof.
  split; [|split].
  - apply (proj1 (validation_names_index refused 1) "Bad-Id"); reflexivity.
  - apply (proj1 (proj2 (proj2 (validation_names_index refused 0)))
             {| cfg_name := " "; cfg_value := []; cfg_op := Some "=="; cfg_expand := None;
                cfg_do_xlat := None; cfg_is_json := None |} "==");
      [reflexivity | reflexivity |].
    unfold op_choices. cbn [In]. intros H.
    repeat (destruct H as [H | H]; [discriminate H|]). exact H.
  - apply (proj2 (proj2 (proj2 (proj2 (validation_names_index refused 0))))
             {| cfg_name := " "; cfg_value := []; cfg_op := Some "=="; cfg_expand := None;
                cfg_do_xlat := None; cfg_is_json := None |});
      reflexivity.
Defined.

End ValidationKeys.

Section ValidationAccepts.

Import Fmt Sdk Profile Lifecycle.

Lemma check_nil (ok : bool) (key : string) : check ok key = [] <-> ok = true.
Proof. destruct ok; cbn; split; intros H; (reflexivity || discriminate H). Qed.

Lemma check_opt_nil {A : Type} (f : A -> bool) (v : option A) (key : string) :
  check_opt f v key = [] <-> (forall a, v = Some a -> f a = true).
Proof.
  destruct v as [a|]; cbn [check_opt].
  - rewrite check_nil. split; [now intros H b [= <-] | intros H; now apply H].
  - split; [intros _ a H; discriminate H | reflexivity].
Qed.

Lemma app_nil_iff {A : Type} (l l' : list A) : (l ++ l')%list = [] <-> l = [] /\ l' = [].
Proof.
  split; [apply app_eq_nil | now intros [-> ->]].
Qed.

Lemma check_each_nil {A : Type} (f : string -> A -> list string) (P : A -> Prop)
    (key : string) (l : list A) :
  (forall k a, f k a = [] <-> P a) ->
  forall i, check_each f key i l = [] <-> Forall P l.
Proof.
  intros Hf. induction l as [|a l IH]; intros i; cbn [check_each].
  - split; [constructor | reflexivity].
  - rewrite app_nil_iff, Hf, IH. split.
    + intros [Ha Hl]. now constructor.
    + intros H. inversion H. now split.
Qed.

Lemma in_slice (valid : list string) (v : string) :
  StringInSlice valid false v = true <-> In v valid.
Proof.
  unfold StringInSlice. rewrite existsb_exists. split.
  - intros [s [Hin Heq]]. apply String.eqb_eq in Heq. now subst.
  - intros H. exists v. split; [exact H | apply String.eqb_refl].
Qed.

Lemma between (lo hi v : Z) : IntBetween lo hi v = true <-> (lo <= v <= hi)%Z.
Proof. unfold IntBetween. rewrite andb_true_iff, !Z.leb_le. reflexivity. Qed.

Lemma validate_radiusAttribute_nil (key : string) (a : AttributeConfig) :
  validate_radiusAttribute key a = [] <-> attribute_in_bounds a.
Proof.
  unfold validate_radiusAttribute, attribute_in_bounds.
  rewrite app_nil_iff, check_nil, check_opt_nil.
  split; intros [Hn Ho]; (split; [exact Hn|]); intros o E; apply in_slice; now apply Ho.
Qed.



End ValidationAccepts.

Section MissingMembers.

Import Fmt Json Sdk Profile Lifecycle.

(** A field that no member's key names is as it was after the object is
    read. *)
Lemma decode_members_keeps {T A : Type} (proj : T -> A)
    (field : T -> string -> JSON -> error + T) (tag : string) :
  (forall p k v p', k <> tag -> field p k v = inr p' -> proj p' = proj p) ->
  forall ms p p', lacks tag ms -> decode_members field ms p = inr p' -> proj p' = proj p.
Proof.
  intros Hf. induction ms as [|[k v] ms IH]; intros p p' Hl H; cbn [decode_members] in H.
  - now injection H as <-.
  - destruct (field p (to_lower k) v) as [e|p1] eqn:E; cbn [try] in H; [discriminate H|].
    rewrite (IH p1 p'); [|intros k' v' Hin; apply (Hl k' v'); now right | exact H].
    apply (Hf p (to_lower k) v p1); [|exact E].
    apply (Hl k v). now left.
Qed.

Ltac other_member H :=
  unfold field_RadiusProfile in H;
  repeat match type of H with
         | context [if String.eqb ?k ?s then _ else _] =>
             destruct (String.eqb_spec k s)
         end;
  try congruence;
  try (injection H as <-; reflexivity);
  match type of H with
  | try ?x _ = _ => destruct x; cbn [try] in H; [discriminate H | injection H as <-; reflexivity]
  end.

Lemma field_keeps_weight (p : RadiusProfile) (k : string) (v : JSON) (p' : RadiusProfile) :
  k <> "weight" -> field_RadiusProfile p k v = inr p' -> Weight p' = Weight p.
Proof. intros Hk H. other_member H. Qed.

Lemma field_keeps_state (p : RadiusProfile) (k : string) (v : JSON) (p' : RadiusProfile) :
  k <> "state" -> field_RadiusProfile p k v = inr p' -> State p' = State p.
Proof. intros Hk H. other_member H. Qed.



End MissingMembers.

Section ReadAgain.

Import Fmt Json Sdk Profile Lifecycle.

Lemma decode_members_app {T : Type} (field : T -> string -> JSON -> error + T)
    (l1 l2 : list (string * JSON)) (p : T) :
  decode_members field (l1 ++ l2) p
  = try (decode_members field l1 p) (decode_members field l2).
Proof.
  revert p. induction l1 as [|[k v] l1 IH]; intros p; cbn [app decode_members try].
  - reflexivity.
  - destruct (field p (to_lower k) v) as [e|p1]; cbn [try]; [reflexivity | apply IH].
Qed.

(** X12.  A response whose [weight] is not an integer that fits a Go
    [int] (a string, a fraction, a number beyond 64 bits) fails the read,
    wherever in the object the member stands and whatever else the object
    holds, and the data is left as it was. *)
Theorem read_rejects_bad_weight (d : ResourceData) (api : APIClient) (status : Z)
    (data : string) (ms1 ms2 : list (string * JSON)) (k : string) (v : JSON) (e : error) :
  answer api (read_request d) = (status, data, None) -> status <> 404%Z ->
  Json.parse data = Some (JObject (ms1 ++ (k, v) :: ms2)) ->
  to_lower k = "weight" -> decode_int v 0 = inl e ->
  exists e', resourceProfileRead d api = Some (d, logged api (read_request d), Some e').
Proof.
  intros Hans Hne Hdata Hk Hv. apply Z.eqb_neq in Hne.
  rewrite resourceProfileRead_spec, Hans, Hne.
  unfold json_Unmarshal. rewrite Hdata. cbn [decode_struct].
  rewrite decode_members_app.
  destruct (decode_members field_RadiusProfile ms1 zero_RadiusProfile) as [e1|p1];
    cbn [try]; [now exists e1|].
  cbn [decode_members]. rewrite Hk.
  assert (Hbad : field_RadiusProfile p1 "weight" v = inl e).
  { unfold field_RadiusProfile. cbn [String.eqb Ascii.eqb Bool.eqb].
    replace (decode_int v (Weight p1)) with (@inl error Z e); [reflexivity|].
    rewrite <- Hv. now destruct v. }
  rewrite Hbad. cbn [try]. now exists e.
Qed.

(** X12, witness: the weight is sent as the string ["50"]. *)
Lemma read_rejects_bad_weight_witness :
  exists e',
    resourceProfileRead Sample.abc
      (Sample.replying (200%Z, Sample.json "{'id':'abc','weight':'50','state':'enabled'}", None))
    = Some (Sample.abc,
            logged (Sample.replying
                      (200%Z, Sample.json "{'id':'abc','weight':'50','state':'enabled'}", None))
              (read_request Sample.abc),
            Some e').
Proof.
  apply (read_rejects_bad_weight Sample.abc
           (Sample.replying
              (200%Z, Sample.json "{'id':'abc','weight':'50','state':'enabled'}", None))
           200%Z (Sample.json "{'id':'abc','weight':'50','state':'enabled'}")
           [("id", JString "abc")] [("state", JString "enabled")] "weight" (JString "50")
           (UnmarshalTypeError "string" "int"));
    [reflexivity | discriminate | reflexivity | reflexivity | reflexivity].
Defined.

(** X13.  Reading is stable: after a read that fetched a profile, a second
    read that is answered with the same body leaves the data exactly as
    the first read left it. *)
Theorem read_twice_stable (d : ResourceData) (api : APIClient) (status : Z)
    (data : string) (obj : RadiusProfile) :
  answer api (read_request d) = (status, data, None) -> status <> 404%Z ->
  json_Unmarshal data = inr obj ->
  exists d1 api1,
    resourceProfileRead d api = Some (d1, api1, None)
    /\ forall status2,
         answer api1 (read_request d1) = (status2, data, None) -> status2 <> 404%Z ->
         resourceProfileRead d1 api1 = Some (d1, logged api1 (read_request d1), None).
Proof.
  intros Hans Hne Hobj. apply Z.eqb_neq in Hne.
  exists (data_read d obj), (logged api (read_request d)).
  rewrite resourceProfileRead_spec, Hans, Hne, Hobj. split; [reflexivity|].
  intros status2 Hans2 Hne2. apply Z.eqb_neq in Hne2.
  rewrite resourceProfileRead_spec, Hans2, Hne2, Hobj. reflexivity.
Qed.

(** X13, witness: the renaming endpoint, asked twice. *)
Lemma read_twice_stable_witness :
  exists d1 api1,
    resourceProfileRead Sample.abc renaming = Some (d1, api1, None)
    /\ forall status2,
         answer api1 (read_request d1)
         = (status2, Sample.json "{'id':'xyz','state':'enabled','weight':50,'radius':{}}", None) ->
         status2 <> 404%Z ->
         resourceProfileRead d1 api1 = Some (d1, logged api1 (read_request d1), None).
Proof.
  apply (read_twice_stable Sample.abc renaming 200%Z
           (Sample.json "{'id':'xyz','state':'enabled','weight':50,'radius':{}}")
           {| ID := "xyz"; State := "enabled"; Weight := 50; Depends := [];
              Description := ""; Radius := zero_RadiusProfileAttributes; Schema := None |});
    [reflexivity | discriminate | vm_compute; reflexivity].
Defined.

Lemma attribute_struct_read (c : RadiusAttribute) : attribute_struct (attribute_read c) = c.
Proof. now destruct c. Qed.

(** X14.  What was fetched is built again as it was fetched, but for two
    things: a state other than ["enabled"] is built as ["disabled"], and
    the [parameter_schema] of the response is not built at all.  The id,
    the weight, the description, the [depends] entries and the [reply] and
    [control] attributes of the structure built from the data a read left
    are those of the response. *)
Theorem fetched_profile_built_again (d : ResourceData) (api api2 : APIClient) (status : Z)
    (data : string) (obj : RadiusProfile) :
  answer api (read_request d) = (status, data, None) -> status <> 404%Z ->
  json_Unmarshal data = inr obj ->
  exists d1 d2 p,
    resourceProfileRead d api = Some (d1, logged api (read_request d), None)
    /\ buildProfileObject d1 api2 = Some (d2, p, None)
    /\ ID p = ID obj /\ Weight p = Weight obj /\ Description p = Description obj
    /\ Depends p = Depends obj /\ Radius p = Radius obj
    /\ State p = (if String.eqb (State obj) "enabled" then "enabled" else "disabled")
    /\ Schema p = None.
Proof.
  intros Hans Hne Hobj. apply Z.eqb_neq in Hne.
  exists (data_read d obj), (tracked (data_read d obj)), (profile_struct (data_read d obj)).
  rewrite resourceProfileRead_spec, Hans, Hne, Hobj, buildProfileObject_spec.
  do 6 (split; [reflexivity|]). split; [|split; reflexivity].
  cbn [profile_struct data_read Radius reply control].
  rewrite !map_map, !(map_ext _ (fun c => c) attribute_struct_read), !map_id.
  now destruct (Radius obj).
Qed.

(** X14, witness: the endpoint reports the state [suspended] and a
    [parameter_schema]; the structure built after the read says
    [disabled] and has no schema. *)
Lemma fetched_profile_built_again_witness :
  exists d1 d2 p,
    resourceProfileRead Sample.abc suspended
    = Some (d1, logged suspended (read_request Sample.abc), None)
    /\ buildProfileObject d1 Sample.fakeserver = Some (d2, p, None)
    /\ ID p = "abc" /\ Weight p = 50%Z /\ Description p = ""
    /\ Depends p = [] /\ Radius p = zero_RadiusProfileAttributes
    /\ State p = "disabled"
    /\ Schema p = None.
Proof.
  apply (fetched_profile_built_again Sample.abc suspended Sample.fakeserver 200%Z
           (Sample.json
              "{'id':'abc','state':'suspended','weight':50,'parameter_schema':{'type':'object'}}")
           {| ID := "abc"; State := "suspended"; Weight := 50; Depends := [];
              Description := ""; Radius := zero_RadiusProfileAttributes;
              Schema := Some (JObject [("type", JString "object")]) |});
    [reflexivity | discriminate | vm_compute; reflexivity].
Defined.

End ReadAgain.
